(** * Vehicle Auction System: bid placement, finalization and broadcast

    A shallow embedding of [main.py] and [models.py].  The three tables
    of [models.py] are lists of rows, the request handlers of [main.py]
    are computations in a small state-and-exception monad over the
    database and the connection manager, and the clock, the keys the
    database assigns and the fate of each websocket send are inputs.

    Money columns are [Numeric(12, 2)]: a price is the integer number of
    hundredths.  A submitted amount is a [Decimal] of any precision, a
    rational here, and the column rounds it.  A [DateTime] is an integer
    number of clock ticks. *)

From Stdlib Require Import ZArith QArith Qround List Bool Lia String.
From Stdlib Require Import Permutation Sorted.
Import ListNotations.
Open Scope Z_scope.

(** ** models.py *)

Module User.
(** [created_at] is never read by the application and is left out. *)
Record t := mk {
  id : Z;
  username : string;
  email : string;
  password : string;
  is_admin : bool
}.
End User.

Module Vehicle.
Record t := mk {
  id : Z;
  title : string;
  description : string;
  image_url : option string;
  starting_price : Z;
  current_price : Z;
  auction_end : Z;
  is_active : bool;
  owner_id : option Z
}.

(** [vehicle.current_price = p] *)
Definition set_current_price (p : Z) (v : t) : t :=
  mk (id v) (title v) (description v) (image_url v) (starting_price v)
     p (auction_end v) (is_active v) (owner_id v).

(** [vehicle.auction_end = d] *)
Definition set_auction_end (d : Z) (v : t) : t :=
  mk (id v) (title v) (description v) (image_url v) (starting_price v)
     (current_price v) d (is_active v) (owner_id v).

(** [v.is_active = a] *)
Definition set_is_active (a : bool) (v : t) : t :=
  mk (id v) (title v) (description v) (image_url v) (starting_price v)
     (current_price v) (auction_end v) a (owner_id v).

(** [v.owner_id = o] *)
Definition set_owner_id (o : option Z) (v : t) : t :=
  mk (id v) (title v) (description v) (image_url v) (starting_price v)
     (current_price v) (auction_end v) (is_active v) o.
End Vehicle.

Module Bid.
Record t := mk {
  id : Z;
  amount : Z;
  user_id : Z;
  vehicle_id : Z;
  created_at : Z
}.
End Bid.

(** ** schemas.py *)

Module BidCreate.
(** The request body of [POST /api/bids] when its amount has at most
    two decimal places, counted in hundredths; the framework has checked
    [amount > 0] before the handler runs.  [DecimalBid.t] below is a
    body of any precision. *)
Record t := mk {
  amount : Z;
  vehicle_id : Z
}.
End BidCreate.

(** ** The database session *)

Record DB := mkDB {
  users : list User.t;
  vehicles : list Vehicle.t;
  bids : list Bid.t     (* in insertion order, newest last *)
}.

(** [db.query(User).filter(User.id == user_id).first()] *)
Definition user_by_id (user_id : Z) (db : DB) : option User.t :=
  find (fun u => User.id u =? user_id) (users db).

(** [db.query(Vehicle).filter(Vehicle.id == vehicle_id).first()] *)
Definition vehicle_by_id (vehicle_id : Z) (db : DB) : option Vehicle.t :=
  find (fun v => Vehicle.id v =? vehicle_id) (vehicles db).

(** [db.query(Bid).filter(Bid.vehicle_id == vehicle_id)] *)
Definition bids_of (vehicle_id : Z) (db : DB) : list Bid.t :=
  filter (fun b => Bid.vehicle_id b =? vehicle_id) (bids db).

(** Flushing a modified ORM object writes
    [UPDATE vehicles SET ... WHERE vehicles.id = ?]. *)
Definition update_vehicle (vehicle_id : Z) (f : Vehicle.t -> Vehicle.t)
    (vs : list Vehicle.t) : list Vehicle.t :=
  map (fun r => if Vehicle.id r =? vehicle_id then f r else r) vs.

(** [ORDER BY key DESC] is the storage engine's.  SQL fixes the rows of
    the answer and the order of rows with different keys; the order of
    rows with equal keys is the engine's choice. *)
Class Engine := {
  order_by_desc : (Bid.t -> Z) -> list Bid.t -> list Bid.t;
  order_by_desc_perm :
    forall key l, Permutation l (order_by_desc key l);
  order_by_desc_sorted :
    forall key l,
      StronglySorted (fun a b => key b <= key a) (order_by_desc key l)
}.

(** ** Requests, responses, exceptions *)

Record Request := mkRequest {
  session_user_id : option Z      (* request.session.get("user_id") *)
}.

(** The [detail] texts of the [HTTPException]s raised in [main.py]. *)
Inductive Detail :=
| LoginRequired                 (* "Login required to place a bid" *)
| AdminsCannotBid               (* "Admins cannot place bids" *)
| AdminOnly                     (* "Admin only" *)
| VehicleNotFound               (* "Vehicle not found" *)
| AuctionEnded                  (* "Auction has ended" *)
| AuctionExpired                (* "Auction period has expired" *)
| BidTooLow (current_price : Z) (* "Bid must be greater than current price $..." *).

Inductive Exception :=
| HTTPException (status_code : Z) (detail : Detail)
| SendFailed.                   (* whatever [ws.send_json] raises *)

(** The rejection reasons of the bid placement boundary. *)
Inductive Reason :=
| Unauthorized | NotFound | Closed | Expired | TooLow | Conflict.

Definition reason_of_detail (d : Detail) : Reason :=
  match d with
  | LoginRequired | AdminsCannotBid | AdminOnly => Unauthorized
  | VehicleNotFound => NotFound
  | AuctionEnded => Closed
  | AuctionExpired => Expired
  | BidTooLow _ => TooLow
  end.

(** HTTP 409 is the status that carries a conflict. *)
Definition reason_of (e : Exception) : option Reason :=
  match e with
  | HTTPException 409 _ => Some Conflict
  | HTTPException _ d => Some (reason_of_detail d)
  | SendFailed => None
  end.

(** ** Websockets and the messages broadcast to them *)

Definition WebSocket := Z.

Inductive Message :=
| vehicle_added (v : Vehicle.t)
| vehicle_removed (vehicle_id : Z)
| bid_update (vehicle_id : Z) (current_price : Z) (bidder : string).

(** ** The state of the application and its monad *)

Record World := mkWorld {
  db : DB;
  active : list WebSocket;                (* manager.active *)
  sends : list (WebSocket * Message)      (* every call of send_json so far *)
}.

Inductive Outcome (A : Type) :=
| Return (a : A)
| Raise (e : Exception).
Arguments Return {A} a.
Arguments Raise {A} e.

Definition App (A : Type) := World -> Outcome A * World.

Definition ret {A} (a : A) : App A := fun w => (Return a, w).

Definition raise {A} (e : Exception) : App A := fun w => (Raise e, w).

Definition bind {A B} (m : App A) (k : A -> App B) : App B :=
  fun w =>
    match m w with
    | (Return a, w') => k a w'
    | (Raise e, w') => (Raise e, w')
    end.

(** [try: body / except Exception: handler] *)
Definition try_except {A} (body : App A) (handler : App A) : App A :=
  fun w =>
    match body w with
    | (Return a, w') => (Return a, w')
    | (Raise _, w') => handler w'
    end.

Declare Scope app_scope.
Delimit Scope app_scope with app.
Notation "x <- m ;; k" := (bind m (fun x => k))
  (at level 61, m at next level, right associativity) : app_scope.
Notation "m ;; k" := (bind m (fun _ => k))
  (at level 61, right associativity) : app_scope.
Open Scope app_scope.

Definition get_db : App DB := fun w => (Return (db w), w).

Definition put_db (d : DB) : App unit :=
  fun w => (Return tt, mkWorld d (active w) (sends w)).

Definition get_active : App (list WebSocket) :=
  fun w => (Return (active w), w).

Definition put_active (a : list WebSocket) : App unit :=
  fun w => (Return tt, mkWorld (db w) a (sends w)).

(** [for x in l: body] *)
Fixpoint for_each {A} (l : list A) (body : A -> App unit) : App unit :=
  match l with
  | [] => ret tt
  | x :: l' => body x ;; for_each l' body
  end.

(** [for x in l: acc = body(x, acc)], for a loop that grows a local list *)
Fixpoint for_acc {A S} (l : list A) (acc : S) (body : A -> S -> App S)
    : App S :=
  match l with
  | [] => ret acc
  | x :: l' => acc' <- body x acc ;; for_acc l' acc' body
  end.

(** [list.remove(x)]: drops the first occurrence *)
Fixpoint list_remove (x : WebSocket) (l : list WebSocket) : list WebSocket :=
  match l with
  | [] => []
  | y :: l' => if y =? x then l' else y :: list_remove x l'
  end.

(** [x in l] *)
Definition list_mem (x : WebSocket) (l : list WebSocket) : bool :=
  existsb (fun y => y =? x) l.

Section Handlers.

Context {E : Engine}.

(** Whether [ws.send_json] returns ([true]) or raises ([false]). *)
Variable alive : WebSocket -> bool.

(** ** ConnectionManager *)

Definition send_json (ws : WebSocket) (message : Message) : App unit :=
  fun w =>
    let w' := mkWorld (db w) (active w) (sends w ++ [(ws, message)]) in
    if alive ws then (Return tt, w') else (Raise SendFailed, w').

(** [await ws.accept()], then [self.active.append(ws)] *)
Definition connect (ws : WebSocket) : App unit :=
  a <- get_active ;; put_active (a ++ [ws]).

(** [if ws in self.active: self.active.remove(ws)] *)
Definition disconnect (ws : WebSocket) : App unit :=
  a <- get_active ;;
  if list_mem ws a then put_active (list_remove ws a) else ret tt.

Definition broadcast (message : Message) : App unit :=
  a <- get_active ;;
  dead <- for_acc a []
            (fun ws dead =>
               try_except (send_json ws message ;; ret dead)
                          (ret (dead ++ [ws]))) ;;
  for_each dead disconnect.

(** ** Helpers *)

Definition get_current_user (request : Request) : App (option User.t) :=
  d <- get_db ;;
  match session_user_id request with
  | None => ret None
  | Some user_id =>
      if user_id =? 0 then ret None else ret (user_by_id user_id d)
  end.

(** [Vehicle.is_active == True, Vehicle.auction_end <= now] *)
Definition is_expired (now : Z) (v : Vehicle.t) : bool :=
  Vehicle.is_active v && (Vehicle.auction_end v <=? now).

(** [db.query(Vehicle).filter(Vehicle.is_active == True,
    Vehicle.auction_end <= now).all()] *)
Definition expired_vehicles (now : Z) (d : DB) : list Vehicle.t :=
  filter (is_expired now) (vehicles d).

(** [db.query(Bid).filter(Bid.vehicle_id == vehicle_id)
    .order_by(Bid.amount.desc()).first()] *)
Definition top_bid (vehicle_id : Z) (d : DB) : option Bid.t :=
  hd_error (order_by_desc Bid.amount (bids_of vehicle_id d)).

Definition modify_vehicle (vehicle_id : Z) (f : Vehicle.t -> Vehicle.t)
    : App unit :=
  d <- get_db ;;
  put_db (mkDB (users d) (update_vehicle vehicle_id f (vehicles d)) (bids d)).

Definition finalize_auctions (now : Z) : App unit :=
  d <- get_db ;;
  for_each (expired_vehicles now d)
    (fun v =>
       modify_vehicle (Vehicle.id v) (Vehicle.set_is_active false) ;;
       d' <- get_db ;;
       match top_bid (Vehicle.id v) d' with
       | Some b =>
           modify_vehicle (Vehicle.id v)
                          (Vehicle.set_owner_id (Some (Bid.user_id b)))
       | None => ret tt
       end).

(** ** REST endpoint: POST /api/bids *)

(** Lines 361-378 of [api_place_bid]: who is calling, which vehicle,
    and the checks on it.  Nothing is written. *)
Definition validate_bid (request : Request) (bid : BidCreate.t) (now : Z)
    : App (User.t * Vehicle.t) :=
  user <- get_current_user request ;;
  match user with
  | None => raise (HTTPException 401 LoginRequired)
  | Some user =>
      if User.is_admin user then raise (HTTPException 403 AdminsCannotBid)
      else
        d <- get_db ;;
        match vehicle_by_id (BidCreate.vehicle_id bid) d with
        | None => raise (HTTPException 404 VehicleNotFound)
        | Some vehicle =>
            if negb (Vehicle.is_active vehicle) then
              raise (HTTPException 400 AuctionEnded)
            else if Vehicle.auction_end vehicle <=? now then
              raise (HTTPException 400 AuctionExpired)
            else if BidCreate.amount bid <=? Vehicle.current_price vehicle
            then
              raise (HTTPException 400
                       (BidTooLow (Vehicle.current_price vehicle)))
            else ret (user, vehicle)
        end
  end.

(** Lines 380-384: the new row, the price, the commit.  [new_id] and
    [created] are the key and the [func.now()] the database gives the
    row.  An amount in hundredths is stored as it is. *)
Definition commit_bid (user : User.t) (vehicle : Vehicle.t)
    (bid : BidCreate.t) (new_id created : Z) : App Bid.t :=
  let new_bid :=
    Bid.mk new_id (BidCreate.amount bid) (User.id user)
           (Vehicle.id vehicle) created in
  modify_vehicle (Vehicle.id vehicle)
                 (Vehicle.set_current_price (BidCreate.amount bid)) ;;
  d <- get_db ;;
  put_db (mkDB (users d) (vehicles d) (bids d ++ [new_bid])) ;;
  ret new_bid.

Definition api_place_bid (request : Request) (bid : BidCreate.t)
    (now new_id created : Z) : App Bid.t :=
  uv <- validate_bid request bid now ;;
  let (user, vehicle) := uv in
  new_bid <- commit_bid user vehicle bid new_id created ;;
  broadcast (bid_update (Vehicle.id vehicle) (BidCreate.amount bid)
                        (User.username user)) ;;
  ret new_bid.

(** ** REST endpoints: GET /api/vehicles, GET /api/vehicles/{id}/bids *)

Definition api_get_vehicles (now : Z) : App (list Vehicle.t) :=
  finalize_auctions now ;;
  d <- get_db ;;
  ret (filter Vehicle.is_active (vehicles d)).

Definition api_get_bids (vehicle_id : Z) : App (list Bid.t) :=
  d <- get_db ;;
  ret (order_by_desc Bid.created_at (bids_of vehicle_id d)).

(** ** Registration and the admin panel *)

Inductive Response :=
| TemplateResponse (name : string) (error : option string)
| RedirectResponse (url : string) (status_code : Z).

(** [POST /register]; the second component is the session afterwards. *)
Definition register (request : Request) (username email password : string)
    (new_id : Z) : App (Response * Request) :=
  d <- get_db ;;
  match find (fun u => String.eqb (User.username u) username
                       || String.eqb (User.email u) email) (users d) with
  | Some _ =>
      ret (TemplateResponse "login.html"%string
             (Some "Username or email already taken"%string), request)
  | None =>
      let new_user := User.mk new_id username email password false in
      put_db (mkDB (users d ++ [new_user]) (vehicles d) (bids d)) ;;
      ret (RedirectResponse "/"%string 303, mkRequest (Some new_id))
  end.

(** [if not user or not user.is_admin: raise HTTPException(403, ...)] *)
Definition require_admin (request : Request) : App User.t :=
  user <- get_current_user request ;;
  match user with
  | None => raise (HTTPException 403 AdminOnly)
  | Some user =>
      if User.is_admin user then ret user
      else raise (HTTPException 403 AdminOnly)
  end.

(** [POST /admin/add-vehicle]; [end_dt] is the parsed form field, and
    [image_url] the place the upload was saved at, if there was one. *)
Definition admin_add_vehicle (request : Request) (title description : string)
    (starting_price end_dt : Z) (image_url : option string) (new_id : Z)
    : App Response :=
  _ <- require_admin request ;;
  let vehicle :=
    Vehicle.mk new_id title description image_url starting_price
               starting_price end_dt true None in
  d <- get_db ;;
  put_db (mkDB (users d) (vehicles d ++ [vehicle]) (bids d)) ;;
  broadcast (vehicle_added vehicle) ;;
  ret (RedirectResponse "/admin"%string 303).

(** [POST /admin/delete-vehicle/{vehicle_id}]; the [bids] relationship
    cascades the delete to the vehicle's bids. *)
Definition admin_delete_vehicle (request : Request) (vehicle_id : Z)
    : App Response :=
  _ <- require_admin request ;;
  d <- get_db ;;
  match vehicle_by_id vehicle_id d with
  | None => raise (HTTPException 404 VehicleNotFound)
  | Some vehicle =>
      put_db (mkDB (users d)
                (filter (fun r => negb (Vehicle.id r =? Vehicle.id vehicle))
                        (vehicles d))
                (filter (fun b => negb (Bid.vehicle_id b =? Vehicle.id vehicle))
                        (bids d))) ;;
      broadcast (vehicle_removed vehicle_id) ;;
      ret (RedirectResponse "/admin"%string 303)
  end.

(** [POST /admin/update-auction/{vehicle_id}] *)
Definition admin_update_auction (request : Request) (vehicle_id : Z)
    (end_dt : Z) : App Response :=
  _ <- require_admin request ;;
  d <- get_db ;;
  match vehicle_by_id vehicle_id d with
  | None => raise (HTTPException 404 VehicleNotFound)
  | Some vehicle =>
      modify_vehicle (Vehicle.id vehicle) (Vehicle.set_auction_end end_dt) ;;
      ret (RedirectResponse "/admin"%string 303)
  end.

End Handlers.

(** ** Pages, sessions and the remaining endpoints *)

Section Pages.

Context {E : Engine}.

(** What the HTML handlers hand to their template, or a redirect. *)
Inductive Page :=
| index_html (vehicles : list Vehicle.t) (user : option User.t)
| my_vehicles_html (user : User.t) (vehicles : list Vehicle.t)
| admin_html (user : User.t) (vehicles : list Vehicle.t)
    (users : list User.t) (bids : list Bid.t)
| redirect (url : string) (status_code : Z).

(** [GET /] *)
Definition home (request : Request) (now : Z) : App Page :=
  finalize_auctions now ;;
  d <- get_db ;;
  user <- get_current_user request ;;
  ret (index_html (filter Vehicle.is_active (vehicles d)) user).

(** [POST /login]; the second component is the session afterwards. *)
Definition login (request : Request) (username password : string)
    : App (Response * Request) :=
  d <- get_db ;;
  match find (fun u => String.eqb (User.username u) username) (users d) with
  | None =>
      ret (TemplateResponse "login.html"%string
             (Some "Invalid username or password"%string), request)
  | Some user =>
      if negb (String.eqb (User.password user) password) then
        ret (TemplateResponse "login.html"%string
               (Some "Invalid username or password"%string), request)
      else
        ret (RedirectResponse "/"%string 303,
             mkRequest (Some (User.id user)))
  end.

(** [GET /logout]: [request.session.clear()] *)
Definition logout (request : Request) : App (Response * Request) :=
  ret (RedirectResponse "/"%string 303, mkRequest None).

(** [Vehicle.owner_id == user_id]; a NULL owner matches nobody. *)
Definition owned_by (user_id : Z) (v : Vehicle.t) : bool :=
  match Vehicle.owner_id v with
  | Some o => o =? user_id
  | None => false
  end.

(** [GET /my-vehicles] *)
Definition my_vehicles (request : Request) (now : Z) : App Page :=
  user <- get_current_user request ;;
  match user with
  | None => ret (redirect "/login"%string 303)
  | Some user =>
      finalize_auctions now ;;
      d <- get_db ;;
      ret (my_vehicles_html user
             (filter (owned_by (User.id user)) (vehicles d)))
  end.

(** [GET /admin] *)
Definition admin_panel (request : Request) (now : Z) : App Page :=
  user <- get_current_user request ;;
  match user with
  | None => ret (redirect "/login"%string 303)
  | Some user =>
      if negb (User.is_admin user) then ret (redirect "/login"%string 303)
      else
        finalize_auctions now ;;
        d <- get_db ;;
        ret (admin_html user (vehicles d) (users d) (bids d))
  end.

(** [GET /api/vehicles/{vehicle_id}] *)
Definition api_get_vehicle (vehicle_id : Z) : App Vehicle.t :=
  d <- get_db ;;
  match vehicle_by_id vehicle_id d with
  | None => raise (HTTPException 404 VehicleNotFound)
  | Some vehicle => ret vehicle
  end.

(** [/ws/auction], for a client that sends [texts] and then goes away:
    every [receive_text] returns and is ignored, the last one raises
    [WebSocketDisconnect]. *)
Definition websocket_endpoint (ws : WebSocket) (texts : list string)
    : App unit :=
  connect ws ;;
  for_each texts (fun _ => ret tt) ;;
  disconnect ws.

End Pages.

(** ** Bids of any precision *)

Module DecimalBid.
(** [schemas.BidCreate] as the framework hands it to the handler:
    [amount] is a [Decimal] of any precision, checked for [amount > 0]
    only.  [BidCreate.t] is such a body whose amount has at most two
    decimal places, counted in hundredths. *)
Record t := mk {
  amount : Q;
  vehicle_id : Z
}.
End DecimalBid.

(** What a [Numeric(12, 2)] column gives back for a [Decimal] written to
    it: hundredths, rounded the way the storage engine rounds.  Within
    the twelve digits of the column a value that is in hundredths
    already comes back as it is, and rounding keeps the order. *)
Class Numeric := {
  quantize : Q -> Z;
  quantize_exact : forall z : Z, quantize (Qmake z 100) = z;
  quantize_mono : forall a b : Q, Qle a b -> quantize a <= quantize b
}.

(** A price read from its column, as the [Decimal] it is compared as. *)
Definition as_decimal (p : Z) : Q := Qmake p 100.

Section DecimalHandlers.

Context {N : Numeric}.
Variable alive : WebSocket -> bool.

(** Lines 361-378 of [api_place_bid] on a body of any precision: the
    amount is compared as it was submitted. *)
Definition validate_bid_decimal (request : Request) (body : DecimalBid.t)
    (now : Z) : App (User.t * Vehicle.t) :=
  user <- get_current_user request ;;
  match user with
  | None => raise (HTTPException 401 LoginRequired)
  | Some user =>
      if User.is_admin user then raise (HTTPException 403 AdminsCannotBid)
      else
        d <- get_db ;;
        match vehicle_by_id (DecimalBid.vehicle_id body) d with
        | None => raise (HTTPException 404 VehicleNotFound)
        | Some vehicle =>
            if negb (Vehicle.is_active vehicle) then
              raise (HTTPException 400 AuctionEnded)
            else if Vehicle.auction_end vehicle <=? now then
              raise (HTTPException 400 AuctionExpired)
            else if Qle_bool (DecimalBid.amount body)
                             (as_decimal (Vehicle.current_price vehicle))
            then
              raise (HTTPException 400
                       (BidTooLow (Vehicle.current_price vehicle)))
            else ret (user, vehicle)
        end
  end.

(** Lines 380-384: both [amount] and [current_price] are written to
    [Numeric(12, 2)] columns, and [db.refresh] reads the new row back. *)
Definition commit_bid_decimal (user : User.t) (vehicle : Vehicle.t)
    (body : DecimalBid.t) (new_id created : Z) : App Bid.t :=
  let stored := quantize (DecimalBid.amount body) in
  let new_bid :=
    Bid.mk new_id stored (User.id user) (Vehicle.id vehicle) created in
  modify_vehicle (Vehicle.id vehicle) (Vehicle.set_current_price stored) ;;
  d <- get_db ;;
  put_db (mkDB (users d) (vehicles d) (bids d ++ [new_bid])) ;;
  ret new_bid.

(** [POST /api/bids] on a body of any precision; the price broadcast is
    the one read back after the commit. *)
Definition api_place_bid_decimal (request : Request) (body : DecimalBid.t)
    (now new_id created : Z) : App Bid.t :=
  uv <- validate_bid_decimal request body now ;;
  let (user, vehicle) := uv in
  new_bid <- commit_bid_decimal user vehicle body new_id created ;;
  broadcast alive
    (bid_update (Vehicle.id vehicle) (quantize (DecimalBid.amount body))
                (User.username user)) ;;
  ret new_bid.

End DecimalHandlers.

(** ** Runs of the application *)

(** One request, or one websocket event.  A handler runs from its first
    line to its commit without yielding, so requests follow one another.
    [op_get_vehicles] stands for every page that sweeps before it reads
    ([/], [/my-vehicles], [/admin], [/api/vehicles]); logging in and out
    only change the session cookie. *)
Inductive Op :=
| op_register (request : Request) (username email password : string)
    (new_id : Z)
| op_add_vehicle (request : Request) (title description : string)
    (starting_price end_dt : Z) (image_url : option string) (new_id : Z)
| op_delete_vehicle (request : Request) (vehicle_id : Z)
| op_update_auction (request : Request) (vehicle_id : Z) (end_dt : Z)
| op_place_bid (request : Request) (bid : BidCreate.t)
    (now new_id created : Z)
| op_get_vehicles (now : Z)
| op_get_bids (vehicle_id : Z)
| op_connect (ws : WebSocket)
| op_disconnect (ws : WebSocket).

Definition run {E : Engine} (alive : WebSocket -> bool) (o : Op) (w : World)
    : World :=
  match o with
  | op_register r u e p i => snd (register r u e p i w)
  | op_add_vehicle r t d s e i n => snd (admin_add_vehicle alive r t d s e i n w)
  | op_delete_vehicle r v => snd (admin_delete_vehicle alive r v w)
  | op_update_auction r v e => snd (admin_update_auction r v e w)
  | op_place_bid r b now i c => snd (api_place_bid alive r b now i c w)
  | op_get_vehicles now => snd (api_get_vehicles now w)
  | op_get_bids v => snd (api_get_bids v w)
  | op_connect ws => snd (connect ws w)
  | op_disconnect ws => snd (disconnect ws w)
  end.

(** A primary key the database assigns to a new row is not in use. *)
Definition keys_fresh (o : Op) (w : World) : bool :=
  match o with
  | op_register _ _ _ _ i =>
      negb (existsb (fun u => User.id u =? i) (users (db w)))
  | op_add_vehicle _ _ _ _ _ _ i =>
      negb (existsb (fun v => Vehicle.id v =? i) (vehicles (db w)))
  | op_place_bid _ _ _ i _ =>
      negb (existsb (fun b => Bid.id b =? i) (bids (db w)))
  | _ => true
  end.

(** The application starts with whatever accounts were seeded, no
    vehicle, no bid and no connection. *)
Definition initial (us : list User.t) : World :=
  mkWorld (mkDB us [] []) [] [].

(** The states these requests lead to, run one after another.
    [sequential] below also has the bids of any precision. *)
Inductive reachable {E : Engine} : World -> Prop :=
| reachable_initial us : reachable (initial us)
| reachable_run w alive o :
    reachable w -> keys_fresh o w = true -> reachable (run alive o w).

(** One request with its body as submitted: any of the requests above,
    or a bid of any precision. *)
Inductive Call :=
| call (alive : WebSocket -> bool) (o : Op)
| call_place_bid (alive : WebSocket -> bool) (request : Request)
    (body : DecimalBid.t) (now new_id created : Z).

Definition serve {E : Engine} {N : Numeric} (c : Call) (w : World) : World :=
  match c with
  | call alive o => run alive o w
  | call_place_bid alive r b now i t =>
      snd (api_place_bid_decimal alive r b now i t w)
  end.

Definition call_fresh (c : Call) (w : World) : bool :=
  match c with
  | call _ o => keys_fresh o w
  | call_place_bid _ _ _ _ i _ =>
      negb (existsb (fun b => Bid.id b =? i) (bids (db w)))
  end.

(** The states the application gets into when every request runs from
    its first line to its commit before the next one starts. *)
Inductive sequential {E : Engine} {N : Numeric} : World -> Prop :=
| sequential_initial us : sequential (initial us)
| sequential_serve w c :
    sequential w -> call_fresh c w = true -> sequential (serve c w).

(** The bid accepted last for a vehicle. *)
Definition latest_bid (vehicle_id : Z) (d : DB) : option Bid.t :=
  hd_error (rev (bids_of vehicle_id d)).

(** [current_price] is the amount of the latest bid, or the starting
    price when there is none. *)
Definition price_ok (d : DB) (v : Vehicle.t) : Prop :=
  Vehicle.current_price v =
  match latest_bid (Vehicle.id v) d with
  | Some b => Bid.amount b
  | None => Vehicle.starting_price v
  end.

(** What the sweep leaves of a row it closes, [top] being the answer of
    the highest-bid query. *)
Definition closed_row (top : option Bid.t) (r : Vehicle.t) : Vehicle.t :=
  match top with
  | Some b =>
      Vehicle.set_owner_id (Some (Bid.user_id b))
        (Vehicle.set_is_active false r)
  | None => Vehicle.set_is_active false r
  end.

(** ** Notions the proofs are stated with *)

(** The user row a session stands for. *)
Definition session_user (request : Request) (d : DB) : option User.t :=
  match session_user_id request with
  | None => None
  | Some user_id => if user_id =? 0 then None else user_by_id user_id d
  end.

(** The database and the row after [commit_bid]. *)
Definition committed (vehicle : Vehicle.t) (new_bid : Bid.t) (d : DB) : DB :=
  mkDB (users d)
       (update_vehicle (Vehicle.id vehicle)
          (Vehicle.set_current_price (Bid.amount new_bid)) (vehicles d))
       (bids d ++ [new_bid]).

(** The handles whose send fails. *)
Definition dead_of (alive : WebSocket -> bool) (a : list WebSocket)
    : list WebSocket :=
  filter (fun ws => negb (alive ws)) a.

(** What [for ws in dead: self.disconnect(ws)] leaves of [self.active]. *)
Definition prune (dead a : list WebSocket) : list WebSocket :=
  fold_left (fun a ws => if list_mem ws a then list_remove ws a else a)
            dead a.

(** The rows after the loop of [finalize_auctions] over [l]. *)
Definition swept {E : Engine} (l : list Vehicle.t) (d : DB)
    : list Vehicle.t :=
  fold_left
    (fun vs v =>
       update_vehicle (Vehicle.id v)
                      (closed_row (top_bid (Vehicle.id v) d)) vs)
    l (vehicles d).

(** The vehicles table after the sweep, row by row. *)
Definition sweep_rows {E : Engine} (l : list Vehicle.t) (d : DB)
    : list Vehicle.t :=
  map (fun r =>
         if existsb (fun e => Vehicle.id e =? Vehicle.id r) l
         then closed_row (top_bid (Vehicle.id r) d) r
         else r)
      (vehicles d).

(** The primary key of [vehicles]. *)
Definition pk_unique (d : DB) : Prop :=
  NoDup (map Vehicle.id (vehicles d)).

(** Every bid belongs to a vehicle that is there. *)
Definition fk_valid (d : DB) : Prop :=
  forall b, In b (bids d) ->
    existsb (fun v => Vehicle.id v =? Bid.vehicle_id b) (vehicles d) = true.

(** A vehicle still in auction has no owner. *)
Definition open_unowned (d : DB) : Prop :=
  forall v, In v (vehicles d) ->
    Vehicle.is_active v = true -> Vehicle.owner_id v = None.

Definition prices_ok (d : DB) : Prop :=
  forall v, In v (vehicles d) -> price_ok d v.

Definition db_inv (d : DB) : Prop :=
  pk_unique d /\ fk_valid d /\ prices_ok d /\ open_unowned d.




(** No two bids on a vehicle have the same amount. *)
Definition no_ties (d : DB) : Prop :=
  forall b b', In b (bids d) -> In b' (bids d) ->
    Bid.vehicle_id b = Bid.vehicle_id b' ->
    Bid.amount b = Bid.amount b' -> b = b'.

(** No two accounts share a name or an address. *)
Definition accounts_unique (d : DB) : Prop :=
  NoDup (map User.username (users d)) /\ NoDup (map User.email (users d)).

(** What one request can do to the database. *)
Inductive db_step {E : Engine} : DB -> DB -> Prop :=
| step_register d u :
    db_step d (mkDB (users d ++ [u]) (vehicles d) (bids d))
| step_add d v :
    existsb (fun r => Vehicle.id r =? Vehicle.id v) (vehicles d) = false ->
    Vehicle.current_price v = Vehicle.starting_price v ->
    Vehicle.is_active v = true ->
    Vehicle.owner_id v = None ->
    db_step d (mkDB (users d) (vehicles d ++ [v]) (bids d))
| step_delete d vehicle_id :
    db_step d
      (mkDB (users d)
            (filter (fun r => negb (Vehicle.id r =? vehicle_id)) (vehicles d))
            (filter (fun b => negb (Bid.vehicle_id b =? vehicle_id)) (bids d)))
| step_reschedule d vehicle_id end_dt :
    db_step d
      (mkDB (users d)
            (update_vehicle vehicle_id (Vehicle.set_auction_end end_dt)
                            (vehicles d))
            (bids d))
| step_bid d vehicle b :
    vehicle_by_id (Vehicle.id vehicle) d = Some vehicle ->
    Bid.vehicle_id b = Vehicle.id vehicle ->
    Vehicle.is_active vehicle = true ->
    Vehicle.current_price vehicle <= Bid.amount b ->
    db_step d (committed vehicle b d)
| step_sweep d now :
    db_step d
      (mkDB (users d) (sweep_rows (expired_vehicles now d) d) (bids d)).

(** ** Two storage engines *)

(** Insertion into a list sorted by decreasing key.  [before_equal]
    says on which side of the rows with the same key the new row goes. *)
Fixpoint insert_desc (before_equal : bool) (key : Bid.t -> Z) (b : Bid.t)
    (l : list Bid.t) : list Bid.t :=
  match l with
  | [] => [b]
  | x :: l' =>
      if (if before_equal then key x <=? key b else key x <? key b)
      then b :: l
      else x :: insert_desc before_equal key b l'
  end.

Definition sort_desc (before_equal : bool) (key : Bid.t -> Z)
    (l : list Bid.t) : list Bid.t :=
  fold_right (insert_desc before_equal key) [] l.

(** Both orders meet the contract of [ORDER BY key DESC]. *)

Section Sorting.

Variable before_equal : bool.
Variable key : Bid.t -> Z.

Lemma insert_desc_perm (b : Bid.t) :
  forall l, Permutation (b :: l) (insert_desc before_equal key b l).
Proof.
  induction l as [|x l IH]; simpl; [apply Permutation_refl|].
  destruct (if before_equal then key x <=? key b else key x <? key b).
  - apply Permutation_refl.
  - apply perm_trans with (x :: b :: l); [apply perm_swap|].
    apply perm_skip. exact IH.
Qed.

Lemma insert_desc_sorted (b : Bid.t) :
  forall l,
    StronglySorted (fun a c => key c <= key a) l ->
    StronglySorted (fun a c => key c <= key a)
                   (insert_desc before_equal key b l).
Proof.
  induction l as [|x l IH]; intros Hs; simpl.
  - repeat constructor.
  - inversion Hs as [|? ? Hs' Hx]; subst.
    destruct (if before_equal then key x <=? key b else key x <? key b)
      eqn:Hc.
    + assert (Hxb : key x <= key b).
      { destruct before_equal;
          [apply Z.leb_le in Hc|apply Z.ltb_lt in Hc]; lia. }
      constructor; [exact Hs|].
      constructor; [exact Hxb|].
      rewrite Forall_forall in *. intros y Hy. specialize (Hx y Hy). lia.
    + assert (Hbx : key b <= key x).
      { destruct before_equal;
          [apply Z.leb_gt in Hc|apply Z.ltb_ge in Hc]; lia. }
      constructor; [apply IH; exact Hs'|].
      rewrite Forall_forall in *. intros y Hy.
      apply (Permutation_in _ (Permutation_sym (insert_desc_perm b l))) in Hy.
      destruct Hy as [<-|Hy]; [exact Hbx|apply Hx; exact Hy].
Qed.

Lemma sort_desc_perm :
  forall l, Permutation l (sort_desc before_equal key l).
Proof.
  induction l as [|b l IH]; simpl; [constructor|].
  apply perm_trans with (b :: sort_desc before_equal key l).
  - apply perm_skip. exact IH.
  - apply insert_desc_perm.
Qed.

Lemma sort_desc_sorted :
  forall l,
    StronglySorted (fun a c => key c <= key a) (sort_desc before_equal key l).
Proof.
  induction l as [|b l IH]; simpl; [constructor|].
  apply insert_desc_sorted. exact IH.
Qed.

End Sorting.

(** Rows with equal keys come out in insertion order. *)
Definition stable_engine : Engine :=
  Build_Engine (sort_desc true) (sort_desc_perm true) (sort_desc_sorted true).

(** Rows with equal keys come out newest first. *)
Definition reversing_engine : Engine :=
  Build_Engine (sort_desc false) (sort_desc_perm false)
               (sort_desc_sorted false).

(** ** A rounding rule *)

(** To the nearest hundredth, halves upwards. *)
Definition round_half_up (q : Q) : Z :=
  Qfloor (Qplus (Qmult q (inject_Z 100)) (Qmake 1 2)).

Lemma round_half_up_exact (z : Z) : round_half_up (Qmake z 100) = z.
Proof.
  unfold round_half_up.
  assert (Hq : Qeq (Qplus (Qmult (Qmake z 100) (inject_Z 100)) (Qmake 1 2))
                   (Qmake (2 * z + 1) 2)).
  { unfold Qeq, Qplus, Qmult, inject_Z. cbn -[Z.mul Z.add]. lia. }
  rewrite (Qfloor_comp _ _ Hq). unfold Qfloor.
  apply eq_sym, Z.div_unique with (r := 1); lia.
Qed.

Lemma round_half_up_mono (a b : Q) :
  Qle a b -> round_half_up a <= round_half_up b.
Proof.
  intros Hab. unfold round_half_up. apply Qfloor_resp_le.
  apply Qplus_le_compat; [|apply Qle_refl].
  apply Qmult_le_compat_r; [exact Hab|]. unfold Qle. cbn. lia.
Qed.

Definition half_up : Numeric :=
  Build_Numeric round_half_up round_half_up_exact round_half_up_mono.

(** ** Sample data *)

Definition admin : User.t :=
  User.mk 1 "admin" "admin@example.org" "secret" true.
Definition alice : User.t :=
  User.mk 2 "alice" "alice@example.org" "secret" false.
Definition bob : User.t :=
  User.mk 3 "bob" "bob@example.org" "secret" false.

(** A vehicle put up at 1000.00 with its auction ending at tick 100. *)
Definition car : Vehicle.t :=
  Vehicle.mk 1 "Roadster" "" None 100000 100000 100 true None.

Definition as_user (u : User.t) : Request := mkRequest (Some (User.id u)).

Definition everyone_alive : WebSocket -> bool := fun _ => true.

(** One open vehicle, no bid yet, two listeners. *)
Definition showroom : World :=
  mkWorld (mkDB [admin; alice; bob] [car] []) [7; 8] [].

(** A vehicle sold to alice earlier, next to one whose auction is over
    but which no sweep has seen yet. *)
Definition sold_car : Vehicle.t :=
  Vehicle.mk 2 "Coupe" "" None 50000 70000 40 false (Some 2).

Definition after_hours : World :=
  mkWorld (mkDB [admin; alice; bob] [car; sold_car]
                [Bid.mk 1 70000 2 2 30; Bid.mk 2 120000 3 1 90])
          [] [].

(** The admin puts the car up; alice bids 1200.00, then bob 1500.00. *)
Definition opening_day : World :=
  @run stable_engine everyone_alive
    (op_add_vehicle (as_user admin) "Roadster" "" 100000 100 None 1)
    (initial [admin; alice; bob]).

Definition first_bid : World :=
  @run stable_engine everyone_alive
    (op_place_bid (as_user alice) (BidCreate.mk 120000 1) 90 1 90)
    opening_day.

Definition second_bid : World :=
  @run stable_engine everyone_alive
    (op_place_bid (as_user bob) (BidCreate.mk 150000 1) 95 2 95)
    first_bid.


(** Alice bids 1000.001 on the car put up at 1000.00, then bob bids
    1000.002. *)
Definition fine_print : World :=
  @serve stable_engine half_up
    (call_place_bid everyone_alive (as_user bob)
       (DecimalBid.mk (Qmake 1000002 1000) 1) 95 2 95)
    (@serve stable_engine half_up
       (call_place_bid everyone_alive (as_user alice)
          (DecimalBid.mk (Qmake 1000001 1000) 1) 90 1 90)
       opening_day).

(** Two bids of 1200.00 on the car, alice's placed before bob's. *)
Definition tied : World :=
  mkWorld (mkDB [admin; alice; bob] [car]
                [Bid.mk 1 120000 2 1 90; Bid.mk 2 120000 3 1 95])
          [] [].

(** * Proofs *)

Lemma bind_run {A B} (m : App A) (k : A -> App B) (w : World) :
  bind m k w =
  match m w with
  | (Return a, w') => k a w'
  | (Raise e, w') => (Raise e, w')
  end.
Proof. reflexivity. Qed.

(** ** The connection manager *)

Section Manager.

Variable alive : WebSocket -> bool.

Lemma send_loop_spec (message : Message) :
  forall (a dead : list WebSocket) (w : World),
    for_acc a dead
      (fun ws dead =>
         try_except (send_json alive ws message ;; ret dead)
                    (ret (dead ++ [ws]))) w
    = (Return (dead ++ dead_of alive a),
       mkWorld (db w) (active w)
               (sends w ++ map (fun ws => (ws, message)) a)).
Proof.
  induction a as [|ws a IH]; intros dead w; simpl.
  - unfold ret. rewrite !app_nil_r. destruct w; reflexivity.
  - unfold bind at 1. unfold try_except, bind, send_json, ret.
    destruct (alive ws); simpl; rewrite IH; simpl;
      rewrite <- !app_assoc; reflexivity.
Qed.

Lemma disconnect_loop_spec :
  forall (dead : list WebSocket) (w : World),
    for_each dead disconnect w
    = (Return tt, mkWorld (db w) (prune dead (active w)) (sends w)).
Proof.
  induction dead as [|ws dead IH]; intros w; simpl.
  - unfold ret. destruct w; reflexivity.
  - unfold bind at 1. unfold disconnect, bind, get_active.
    destruct (list_mem ws (active w)) eqn:Hm.
    + unfold put_active. rewrite IH. unfold prune.
      cbn [fold_left active db sends]. rewrite ?Hm. reflexivity.
    + unfold ret. rewrite IH. unfold prune.
      cbn [fold_left]. rewrite ?Hm. reflexivity.
Qed.

Lemma prune_cons_other :
  forall (dead a : list WebSocket) (x : WebSocket),
    Forall (fun ws => ws <> x) dead ->
    prune dead (x :: a) = x :: prune dead a.
Proof.
  induction dead as [|ws dead IH]; intros a x Hd; [reflexivity|].
  inversion Hd as [|? ? Hne Hd']; subst.
  unfold prune in *. simpl.
  assert (Hx : (x =? ws) = false) by (apply Z.eqb_neq; congruence).
  rewrite Hx. simpl.
  destruct (list_mem ws a); apply IH; assumption.
Qed.

Lemma prune_dead :
  forall a : list WebSocket, prune (dead_of alive a) a = filter alive a.
Proof.
  induction a as [|x a IH]; [reflexivity|].
  unfold dead_of in *. simpl. destruct (alive x) eqn:Hx; simpl.
  - rewrite prune_cons_other.
    + rewrite IH. reflexivity.
    + apply Forall_forall. intros ws Hin Heq. subst ws.
      apply filter_In in Hin. destruct Hin as [_ Hd].
      rewrite Hx in Hd. discriminate.
  - unfold prune. simpl. rewrite Z.eqb_refl. simpl. exact IH.
Qed.

Lemma broadcast_spec (message : Message) (w : World) :
  broadcast alive message w
  = (Return tt,
     mkWorld (db w) (filter alive (active w))
             (sends w ++ map (fun ws => (ws, message)) (active w))).
Proof.
  unfold broadcast. rewrite bind_run. unfold get_active.
  rewrite bind_run, send_loop_spec, disconnect_loop_spec. simpl.
  rewrite prune_dead. reflexivity.
Qed.

End Manager.

(** ** The sweep *)

Section Sweep.

Context {E : Engine}.

Lemma modify_vehicle_run (vehicle_id : Z) (f : Vehicle.t -> Vehicle.t)
    (w : World) :
  modify_vehicle vehicle_id f w
  = (Return tt,
     mkWorld (mkDB (users (db w))
                   (update_vehicle vehicle_id f (vehicles (db w)))
                   (bids (db w)))
             (active w) (sends w)).
Proof. reflexivity. Qed.

Lemma update_vehicle_fuse (vehicle_id : Z) (f g : Vehicle.t -> Vehicle.t)
    (vs : list Vehicle.t) :
  (forall r, Vehicle.id (f r) = Vehicle.id r) ->
  update_vehicle vehicle_id g (update_vehicle vehicle_id f vs)
  = update_vehicle vehicle_id (fun r => g (f r)) vs.
Proof.
  intros Hid. unfold update_vehicle. rewrite map_map.
  apply map_ext. intros r.
  destruct (Vehicle.id r =? vehicle_id) eqn:Hr.
  - rewrite Hid, Hr. reflexivity.
  - rewrite Hr. reflexivity.
Qed.

(** The highest-bid query reads the bids table only. *)
Lemma top_bid_bids (vehicle_id : Z) (d d' : DB) :
  bids d = bids d' -> top_bid vehicle_id d = top_bid vehicle_id d'.
Proof. intros H. unfold top_bid, bids_of. rewrite H. reflexivity. Qed.

Lemma sweep_loop_spec :
  forall (l : list Vehicle.t) (w : World),
    for_each l
      (fun v =>
         modify_vehicle (Vehicle.id v) (Vehicle.set_is_active false) ;;
         d' <- get_db ;;
         match top_bid (Vehicle.id v) d' with
         | Some b =>
             modify_vehicle (Vehicle.id v)
                            (Vehicle.set_owner_id (Some (Bid.user_id b)))
         | None => ret tt
         end) w
    = (Return tt,
       mkWorld (mkDB (users (db w)) (swept l (db w)) (bids (db w)))
               (active w) (sends w)).
Proof.
  induction l as [|v l IH]; intros w.
  - destruct w as [[us vs bs] a s]. reflexivity.
  - cbn [for_each]. rewrite bind_run, bind_run, modify_vehicle_run.
    rewrite bind_run. unfold get_db. cbn [db active sends].
    set (d1 := mkDB _ _ _).
    rewrite (top_bid_bids (Vehicle.id v) d1 (db w)) by reflexivity.
    assert (Hstep :
      (match top_bid (Vehicle.id v) (db w) with
       | Some b =>
           modify_vehicle (Vehicle.id v)
                          (Vehicle.set_owner_id (Some (Bid.user_id b)))
       | None => ret tt
       end) (mkWorld d1 (active w) (sends w))
      = (Return tt,
         mkWorld (mkDB (users (db w))
                       (update_vehicle (Vehicle.id v)
                          (closed_row (top_bid (Vehicle.id v) (db w)))
                          (vehicles (db w)))
                       (bids (db w)))
                 (active w) (sends w))).
    { unfold closed_row. destruct (top_bid (Vehicle.id v) (db w)) as [b|].
      - rewrite modify_vehicle_run. subst d1.
        cbn [db users vehicles bids active sends].
        rewrite update_vehicle_fuse by reflexivity. reflexivity.
      - subst d1. reflexivity. }
    rewrite Hstep. rewrite IH. cbn [db users vehicles bids active sends].
    reflexivity.
Qed.

Lemma closed_row_id (top : option Bid.t) (r : Vehicle.t) :
  Vehicle.id (closed_row top r) = Vehicle.id r.
Proof. destruct top; reflexivity. Qed.

Lemma closed_row_twice (top : option Bid.t) (r : Vehicle.t) :
  closed_row top (closed_row top r) = closed_row top r.
Proof. destruct top; reflexivity. Qed.

Lemma fold_update_rows (T : Z -> Vehicle.t -> Vehicle.t) :
  (forall k r, Vehicle.id (T k r) = Vehicle.id r) ->
  (forall k r, T k (T k r) = T k r) ->
  forall (l vs : list Vehicle.t),
    fold_left
      (fun vs v => update_vehicle (Vehicle.id v) (T (Vehicle.id v)) vs) l vs
    = map (fun r =>
             if existsb (fun e => Vehicle.id e =? Vehicle.id r) l
             then T (Vehicle.id r) r
             else r) vs.
Proof.
  intros Hid Hidem.
  induction l as [|v l IH]; intros vs.
  - simpl. rewrite map_id. reflexivity.
  - cbn [fold_left]. rewrite IH. unfold update_vehicle.
    rewrite map_map. apply map_ext. intros r.
    cbn [existsb]. rewrite (Z.eqb_sym (Vehicle.id v) (Vehicle.id r)).
    destruct (Vehicle.id r =? Vehicle.id v) eqn:Hr; cbn [orb].
    + apply Z.eqb_eq in Hr. rewrite Hid, <- Hr, Hidem.
      destruct (existsb _ l); reflexivity.
    + reflexivity.
Qed.

Lemma swept_rows (l : list Vehicle.t) (d : DB) :
  swept l d = sweep_rows l d.
Proof.
  unfold swept, sweep_rows.
  apply (fold_update_rows (fun k => closed_row (top_bid k d))).
  - intros k r. apply closed_row_id.
  - intros k r. apply closed_row_twice.
Qed.

Lemma finalize_auctions_spec (now : Z) (w : World) :
  finalize_auctions now w
  = (Return tt,
     mkWorld (mkDB (users (db w))
                   (sweep_rows (expired_vehicles now (db w)) (db w))
                   (bids (db w)))
             (active w) (sends w)).
Proof.
  unfold finalize_auctions. rewrite bind_run. unfold get_db.
  rewrite sweep_loop_spec.
  rewrite swept_rows. reflexivity.
Qed.

Lemma pk_filter_hit (p : Vehicle.t -> bool) :
  forall (vs : list Vehicle.t) (r : Vehicle.t),
    NoDup (map Vehicle.id vs) -> In r vs ->
    existsb (fun e => Vehicle.id e =? Vehicle.id r) (filter p vs) = p r.
Proof.
  intros vs r Hnd Hin.
  destruct (p r) eqn:Hp.
  - apply existsb_exists. exists r. split.
    + apply filter_In. auto.
    + apply Z.eqb_refl.
  - destruct (existsb _ (filter p vs)) eqn:Hex; [|reflexivity].
    apply existsb_exists in Hex. destruct Hex as [e [He Heq]].
    apply filter_In in He. destruct He as [He Hpe].
    apply Z.eqb_eq in Heq.
    assert (e = r).
    { clear Hp Hpe. induction vs as [|x vs IHvs]; [contradiction|].
      simpl in Hnd. inversion Hnd as [|? ? Hnotin Hnd']; subst.
      destruct He as [He|He], Hin as [Hin|Hin]; subst.
      - reflexivity.
      - exfalso. apply Hnotin. rewrite Heq. apply in_map. assumption.
      - exfalso. apply Hnotin. rewrite <- Heq. apply in_map. assumption.
      - apply IHvs; assumption. }
    subst e. congruence.
Qed.

(** Under the primary key the sweep closes the expired rows and keeps
    the others. *)
Lemma sweep_rows_pk (now : Z) (d : DB) :
  pk_unique d ->
  sweep_rows (expired_vehicles now d) d
  = map (fun r =>
           if is_expired now r
           then closed_row (top_bid (Vehicle.id r) d) r
           else r)
        (vehicles d).
Proof.
  intros Hpk. unfold sweep_rows, expired_vehicles.
  apply map_ext_in. intros r Hin.
  rewrite pk_filter_hit by assumption. reflexivity.
Qed.

End Sweep.

(** ** The handlers, one equation each *)

Section Equations.

Context {E : Engine}.
Variable alive : WebSocket -> bool.

Lemma get_current_user_run (request : Request) (w : World) :
  get_current_user request w = (Return (session_user request (db w)), w).
Proof.
  unfold get_current_user, session_user. rewrite bind_run. unfold get_db.
  destruct (session_user_id request) as [user_id|]; [|reflexivity].
  destruct (user_id =? 0); reflexivity.
Qed.

Lemma require_admin_run (request : Request) (w : World) :
  snd (require_admin request w) = w.
Proof.
  unfold require_admin. rewrite bind_run, get_current_user_run.
  destruct (session_user request (db w)) as [user|]; [|reflexivity].
  destruct (User.is_admin user); reflexivity.
Qed.

(** Validation writes nothing. *)
Lemma validate_bid_run (request : Request) (bid : BidCreate.t) (now : Z)
    (w : World) :
  snd (validate_bid request bid now w) = w.
Proof.
  unfold validate_bid. rewrite bind_run, get_current_user_run.
  destruct (session_user request (db w)) as [user|]; [|reflexivity].
  destruct (User.is_admin user); [reflexivity|].
  rewrite bind_run. unfold get_db.
  destruct (vehicle_by_id (BidCreate.vehicle_id bid) (db w)) as [vehicle|];
    [|reflexivity].
  destruct (negb (Vehicle.is_active vehicle)); [reflexivity|].
  destruct (Vehicle.auction_end vehicle <=? now); [reflexivity|].
  destruct (BidCreate.amount bid <=? Vehicle.current_price vehicle);
    reflexivity.
Qed.

(** What validation has established when it lets a bid through. *)
Lemma validate_bid_return (request : Request) (bid : BidCreate.t) (now : Z)
    (w : World) (user : User.t) (vehicle : Vehicle.t) :
  fst (validate_bid request bid now w) = Return (user, vehicle) ->
  session_user request (db w) = Some user
  /\ User.is_admin user = false
  /\ vehicle_by_id (BidCreate.vehicle_id bid) (db w) = Some vehicle
  /\ Vehicle.is_active vehicle = true
  /\ now < Vehicle.auction_end vehicle
  /\ Vehicle.current_price vehicle < BidCreate.amount bid.
Proof.
  unfold validate_bid. rewrite bind_run, get_current_user_run.
  destruct (session_user request (db w)) as [u|]; [|discriminate].
  destruct (User.is_admin u) eqn:Ha; [discriminate|].
  rewrite bind_run. unfold get_db.
  destruct (vehicle_by_id (BidCreate.vehicle_id bid) (db w)) as [v|];
    [|discriminate].
  destruct (Vehicle.is_active v) eqn:Hact; [|discriminate]. cbn [negb].
  destruct (Vehicle.auction_end v <=? now) eqn:Hend; [discriminate|].
  destruct (BidCreate.amount bid <=? Vehicle.current_price v) eqn:Hamt;
    [discriminate|].
  cbn. intros H. injection H as -> ->.
  apply Z.leb_gt in Hend. apply Z.leb_gt in Hamt.
  repeat split; assumption || reflexivity.
Qed.

Lemma commit_bid_run (user : User.t) (vehicle : Vehicle.t)
    (bid : BidCreate.t) (new_id created : Z) (w : World) :
  let new_bid :=
    Bid.mk new_id (BidCreate.amount bid) (User.id user)
           (Vehicle.id vehicle) created in
  commit_bid user vehicle bid new_id created w
  = (Return new_bid,
     mkWorld (committed vehicle new_bid (db w)) (active w) (sends w)).
Proof. reflexivity. Qed.

Lemma api_place_bid_run (request : Request) (bid : BidCreate.t)
    (now new_id created : Z) (w : World) :
  api_place_bid alive request bid now new_id created w
  = match fst (validate_bid request bid now w) with
    | Raise e => (Raise e, w)
    | Return (user, vehicle) =>
        let new_bid :=
          Bid.mk new_id (BidCreate.amount bid) (User.id user)
                 (Vehicle.id vehicle) created in
        (Return new_bid,
         mkWorld (committed vehicle new_bid (db w))
                 (filter alive (active w))
                 (sends w
                  ++ map (fun ws =>
                            (ws, bid_update (Vehicle.id vehicle)
                                   (BidCreate.amount bid)
                                   (User.username user)))
                         (active w)))
    end.
Proof.
  unfold api_place_bid. rewrite bind_run.
  pose proof (validate_bid_run request bid now w) as Hw.
  destruct (validate_bid request bid now w) as [[[user vehicle]|e] w'];
    cbn [fst snd] in *; subst w'; [|reflexivity].
  rewrite bind_run, commit_bid_run, bind_run, broadcast_spec.
  reflexivity.
Qed.

End Equations.

(** ** What a request can do to the database *)

Section Transitions.

Context {E : Engine}.

Lemma vehicle_by_id_id (vehicle_id : Z) (d : DB) (v : Vehicle.t) :
  vehicle_by_id vehicle_id d = Some v ->
  In v (vehicles d) /\ Vehicle.id v = vehicle_id.
Proof.
  unfold vehicle_by_id. intros H. apply find_some in H.
  destruct H as [Hin Heq]. apply Z.eqb_eq in Heq. auto.
Qed.

Lemma run_db_step (alive : WebSocket -> bool) (o : Op) (w : World) :
  keys_fresh o w = true ->
  db (run alive o w) = db w \/ db_step (db w) (db (run alive o w)).
Proof.
  intros Hfresh. destruct o; cbn [run].
  - (* register *)
    unfold register. rewrite bind_run. unfold get_db.
    destruct (find _ (users (db w))); [left; reflexivity|].
    right. cbn. apply step_register.
  - (* add vehicle *)
    unfold admin_add_vehicle. rewrite bind_run.
    pose proof (require_admin_run request w) as Hw.
    destruct (require_admin request w) as [[u|e] w']; cbn [snd] in Hw; subst w';
      [|left; reflexivity].
    rewrite bind_run. unfold get_db. rewrite bind_run. unfold put_db.
    rewrite bind_run, broadcast_spec. right. cbn.
    cbn in Hfresh. apply negb_true_iff in Hfresh.
    apply (step_add (db w)
             (Vehicle.mk new_id title description image_url starting_price
                         starting_price end_dt true None));
      auto.
  - (* delete vehicle *)
    unfold admin_delete_vehicle. rewrite bind_run.
    pose proof (require_admin_run request w) as Hw.
    destruct (require_admin request w) as [[u|e] w']; cbn [snd] in Hw; subst w';
      [|left; reflexivity].
    rewrite bind_run. unfold get_db.
    destruct (vehicle_by_id vehicle_id (db w)) as [v|]; [|left; reflexivity].
    rewrite bind_run. unfold put_db. rewrite bind_run, broadcast_spec.
    right. cbn. apply step_delete.
  - (* update auction *)
    unfold admin_update_auction. rewrite bind_run.
    pose proof (require_admin_run request w) as Hw.
    destruct (require_admin request w) as [[u|e] w']; cbn [snd] in Hw; subst w';
      [|left; reflexivity].
    rewrite bind_run. unfold get_db.
    destruct (vehicle_by_id vehicle_id (db w)) as [v|]; [|left; reflexivity].
    rewrite bind_run, modify_vehicle_run. right. cbn. apply step_reschedule.
  - (* place bid *)
    rewrite api_place_bid_run.
    destruct (fst (validate_bid request bid now w)) as [[user vehicle]|e] eqn:Hv;
      [|left; reflexivity].
    apply validate_bid_return in Hv.
    destruct Hv as (_ & _ & Hfind & Hact & _ & Hlt).
    right. cbn [snd db].
    destruct (vehicle_by_id_id _ _ _ Hfind) as [_ Hid].
    apply step_bid; cbn; try assumption; try reflexivity.
    + rewrite Hid. assumption.
    + lia.
  - (* get vehicles *)
    unfold api_get_vehicles. rewrite bind_run, finalize_auctions_spec.
    right. cbn. apply step_sweep.
  - left. reflexivity.
  - left. reflexivity.
  - left. unfold disconnect. rewrite bind_run. unfold get_active.
    destruct (list_mem ws (active w)); reflexivity.
Qed.

End Transitions.

(** ** Invariants of the database *)

Section Invariants.

Context {E : Engine}.

Lemma existsb_ids (k : Z) (vs : list Vehicle.t) :
  existsb (fun v => Vehicle.id v =? k) vs
  = existsb (fun i => i =? k) (map Vehicle.id vs).
Proof.
  induction vs as [|v vs IH]; [reflexivity|]. simpl. rewrite IH. reflexivity.
Qed.

Lemma update_vehicle_ids (k : Z) (f : Vehicle.t -> Vehicle.t)
    (vs : list Vehicle.t) :
  (forall r, Vehicle.id (f r) = Vehicle.id r) ->
  map Vehicle.id (update_vehicle k f vs) = map Vehicle.id vs.
Proof.
  intros Hid. unfold update_vehicle. rewrite map_map. apply map_ext.
  intros r. destruct (Vehicle.id r =? k); [apply Hid|reflexivity].
Qed.

Lemma sweep_rows_ids (l : list Vehicle.t) (d : DB) :
  map Vehicle.id (sweep_rows l d) = map Vehicle.id (vehicles d).
Proof.
  unfold sweep_rows. rewrite map_map. apply map_ext. intros r.
  destruct (existsb _ l); [apply closed_row_id|reflexivity].
Qed.

Lemma pk_same_row (vs : list Vehicle.t) (r r' : Vehicle.t) :
  NoDup (map Vehicle.id vs) -> In r vs -> In r' vs ->
  Vehicle.id r = Vehicle.id r' -> r = r'.
Proof.
  induction vs as [|x vs IH]; [contradiction|].
  simpl. intros Hnd Hr Hr' Heq.
  inversion Hnd as [|? ? Hnotin Hnd']; subst.
  destruct Hr as [Hr|Hr], Hr' as [Hr'|Hr']; subst.
  - reflexivity.
  - exfalso. apply Hnotin. rewrite Heq. apply in_map. assumption.
  - exfalso. apply Hnotin. rewrite <- Heq. apply in_map. assumption.
  - apply IH; assumption.
Qed.

Lemma price_ok_bids (d d' : DB) (v : Vehicle.t) :
  bids_of (Vehicle.id v) d' = bids_of (Vehicle.id v) d ->
  price_ok d v -> price_ok d' v.
Proof.
  unfold price_ok, latest_bid. intros ->. auto.
Qed.

Lemma bids_of_none (k : Z) (d : DB) :
  fk_valid d ->
  existsb (fun v => Vehicle.id v =? k) (vehicles d) = false ->
  bids_of k d = [].
Proof.
  intros Hfk Hk. unfold bids_of.
  destruct (filter _ (bids d)) as [|b l] eqn:Hf; [reflexivity|].
  assert (Hin : In b (filter (fun b => Bid.vehicle_id b =? k) (bids d)))
    by (rewrite Hf; left; reflexivity).
  apply filter_In in Hin. destruct Hin as [Hin Hb].
  apply Z.eqb_eq in Hb. apply Hfk in Hin. rewrite Hb in Hin. congruence.
Qed.

(** A map over the rows that keeps keys, prices, and the rows still open
    that it leaves open unowned, keeps the invariant. *)
Lemma db_inv_rows (d : DB) (g : Vehicle.t -> Vehicle.t) :
  (forall r, Vehicle.id (g r) = Vehicle.id r) ->
  (forall r, Vehicle.current_price (g r) = Vehicle.current_price r) ->
  (forall r, Vehicle.starting_price (g r) = Vehicle.starting_price r) ->
  (forall r, Vehicle.is_active (g r) = true ->
             Vehicle.is_active r = true /\
             Vehicle.owner_id (g r) = Vehicle.owner_id r) ->
  db_inv d ->
  db_inv (mkDB (users d) (map g (vehicles d)) (bids d)).
Proof.
  intros Hid Hcur Hstart Hopen (Hpk & Hfk & Hpr & Hop).
  assert (Hids : map Vehicle.id (map g (vehicles d))
                 = map Vehicle.id (vehicles d)).
  { rewrite map_map. apply map_ext. exact Hid. }
  repeat split.
  - unfold pk_unique. cbn [vehicles]. rewrite Hids. exact Hpk.
  - intros b Hb. cbn [vehicles bids] in *.
    rewrite existsb_ids, Hids, <- existsb_ids. apply Hfk. exact Hb.
  - intros v' Hv'. cbn [vehicles] in Hv'. apply in_map_iff in Hv'.
    destruct Hv' as [r [<- Hr]].
    specialize (Hpr r Hr). unfold price_ok in *.
    rewrite Hcur, Hstart, Hid. exact Hpr.
  - intros v' Hv' Hact. cbn [vehicles] in Hv'. apply in_map_iff in Hv'.
    destruct Hv' as [r [<- Hr]].
    destruct (Hopen r Hact) as [Hact' Hown]. rewrite Hown.
    apply Hop; assumption.
Qed.

Lemma bids_of_app (k : Z) (us : list User.t) (vs : list Vehicle.t)
    (bs : list Bid.t) (b : Bid.t) :
  bids_of k (mkDB us vs (bs ++ [b]))
  = bids_of k (mkDB us vs bs)
    ++ (if Bid.vehicle_id b =? k then [b] else []).
Proof.
  unfold bids_of. cbn [bids]. rewrite filter_app. simpl.
  destruct (Bid.vehicle_id b =? k); reflexivity.
Qed.

Lemma db_inv_register (d : DB) (u : User.t) :
  db_inv d -> db_inv (mkDB (users d ++ [u]) (vehicles d) (bids d)).
Proof.
  intros (Hpk & Hfk & Hpr & Hop). repeat split; assumption.
Qed.

Lemma db_inv_add (d : DB) (v : Vehicle.t) :
  existsb (fun r => Vehicle.id r =? Vehicle.id v) (vehicles d) = false ->
  Vehicle.current_price v = Vehicle.starting_price v ->
  Vehicle.is_active v = true ->
  Vehicle.owner_id v = None ->
  db_inv d -> db_inv (mkDB (users d) (vehicles d ++ [v]) (bids d)).
Proof.
  intros Hnew Hcur Hact Hown (Hpk & Hfk & Hpr & Hop). repeat split.
  - unfold pk_unique in *. cbn [vehicles]. rewrite map_app. simpl.
    apply Permutation_NoDup
      with (l := Vehicle.id v :: map Vehicle.id (vehicles d)).
    + apply Permutation_cons_append.
    + constructor; [|exact Hpk]. intros Hin.
      rewrite existsb_ids in Hnew.
      assert (existsb (fun i => i =? Vehicle.id v)
                      (map Vehicle.id (vehicles d)) = true).
      { apply existsb_exists. eexists. split; [exact Hin|apply Z.eqb_refl]. }
      congruence.
  - intros b Hb. cbn [vehicles bids] in *. rewrite existsb_app.
    rewrite (Hfk b Hb). reflexivity.
  - intros r Hr. cbn [vehicles] in Hr. apply in_app_or in Hr.
    destruct Hr as [Hr|[<-|[]]].
    + apply (price_ok_bids d); [reflexivity|]. apply Hpr. exact Hr.
    + unfold price_ok, latest_bid.
      change (bids_of (Vehicle.id v)
                (mkDB (users d) (vehicles d ++ [v]) (bids d)))
        with (bids_of (Vehicle.id v) d).
      rewrite (bids_of_none _ d Hfk Hnew). simpl. exact Hcur.
  - intros r Hr Hra. cbn [vehicles] in Hr. apply in_app_or in Hr.
    destruct Hr as [Hr|[<-|[]]]; [apply Hop; assumption|exact Hown].
Qed.

Lemma db_inv_delete (d : DB) (k : Z) :
  db_inv d ->
  db_inv (mkDB (users d)
            (filter (fun r => negb (Vehicle.id r =? k)) (vehicles d))
            (filter (fun b => negb (Bid.vehicle_id b =? k)) (bids d))).
Proof.
  intros (Hpk & Hfk & Hpr & Hop). repeat split.
  - unfold pk_unique in *. cbn [vehicles].
    clear Hfk Hpr Hop. induction (vehicles d) as [|x vs IH]; [constructor|].
    simpl in *. inversion Hpk as [|? ? Hnotin Hnd]; subst.
    destruct (negb (Vehicle.id x =? k)); [|apply IH; exact Hnd].
    simpl. constructor; [|apply IH; exact Hnd].
    intros Hin. apply Hnotin. apply in_map_iff in Hin.
    destruct Hin as [y [Hy Hin]]. apply filter_In in Hin.
    rewrite <- Hy. apply in_map. tauto.
  - intros b Hb. cbn [vehicles bids] in *. apply filter_In in Hb.
    destruct Hb as [Hb Hk]. specialize (Hfk b Hb).
    apply existsb_exists in Hfk. destruct Hfk as [v [Hv Hid]].
    apply existsb_exists. exists v. split; [|exact Hid].
    apply filter_In. split; [exact Hv|].
    apply Z.eqb_eq in Hid. rewrite Hid. exact Hk.
  - intros r Hr. cbn [vehicles] in Hr. apply filter_In in Hr.
    destruct Hr as [Hr Hk]. apply (price_ok_bids d); [|apply Hpr; exact Hr].
    unfold bids_of. cbn [bids].
    induction (bids d) as [|b bs IH]; [reflexivity|]. simpl.
    destruct (Bid.vehicle_id b =? k) eqn:Hb; simpl.
    + destruct (Bid.vehicle_id b =? Vehicle.id r) eqn:Hbr; [|exact IH].
      apply Z.eqb_eq in Hb. apply Z.eqb_eq in Hbr.
      rewrite <- Hbr, Hb, Z.eqb_refl in Hk. discriminate.
    + destruct (Bid.vehicle_id b =? Vehicle.id r); [f_equal|]; exact IH.
  - intros r Hr Hact. cbn [vehicles] in Hr. apply filter_In in Hr.
    apply Hop; tauto.
Qed.

Lemma db_inv_reschedule (d : DB) (k end_dt : Z) :
  db_inv d ->
  db_inv (mkDB (users d)
            (update_vehicle k (Vehicle.set_auction_end end_dt) (vehicles d))
            (bids d)).
Proof.
  intros Hinv. unfold update_vehicle.
  apply (db_inv_rows d
           (fun r => if Vehicle.id r =? k
                     then Vehicle.set_auction_end end_dt r else r));
    try assumption; intros r; destruct (Vehicle.id r =? k); auto.
Qed.

Lemma db_inv_sweep (d : DB) (l : list Vehicle.t) :
  db_inv d -> db_inv (mkDB (users d) (sweep_rows l d) (bids d)).
Proof.
  intros Hinv. unfold sweep_rows.
  apply (db_inv_rows d
           (fun r => if existsb (fun e => Vehicle.id e =? Vehicle.id r) l
                     then closed_row (top_bid (Vehicle.id r) d) r else r));
    try assumption; intros r; destruct (existsb _ l); auto;
    destruct (top_bid (Vehicle.id r) d); cbn; auto; discriminate.
Qed.

Lemma db_inv_bid (d : DB) (vehicle : Vehicle.t) (b : Bid.t) :
  vehicle_by_id (Vehicle.id vehicle) d = Some vehicle ->
  Bid.vehicle_id b = Vehicle.id vehicle ->
  db_inv d -> db_inv (committed vehicle b d).
Proof.
  intros Hfind Hb (Hpk & Hfk & Hpr & Hop).
  assert (Hids : map Vehicle.id (vehicles (committed vehicle b d))
                 = map Vehicle.id (vehicles d)).
  { cbn [committed vehicles]. apply update_vehicle_ids. reflexivity. }
  repeat split.
  - unfold pk_unique. rewrite Hids. exact Hpk.
  - intros b' Hb'. rewrite existsb_ids, Hids, <- existsb_ids.
    cbn [committed bids] in Hb'. apply in_app_or in Hb'.
    destruct Hb' as [Hb'|[<-|[]]]; [apply Hfk; exact Hb'|].
    rewrite Hb. apply existsb_exists. exists vehicle.
    destruct (vehicle_by_id_id _ _ _ Hfind) as [Hin _].
    split; [exact Hin|apply Z.eqb_refl].
  - intros v' Hv'. cbn [committed vehicles] in Hv'.
    unfold update_vehicle in Hv'. apply in_map_iff in Hv'.
    destruct Hv' as [r [<- Hr]].
    unfold price_ok, latest_bid, committed. rewrite bids_of_app.
    destruct (Vehicle.id r =? Vehicle.id vehicle) eqn:Hk.
    + cbn [Vehicle.set_current_price Vehicle.id Vehicle.current_price].
      rewrite Hb, (Z.eqb_sym (Vehicle.id vehicle)), Hk.
      rewrite rev_app_distr. reflexivity.
    + rewrite Hb, (Z.eqb_sym (Vehicle.id vehicle)), Hk, app_nil_r.
      apply Hpr. exact Hr.
  - intros v' Hv' Hact. cbn [committed vehicles] in Hv'.
    unfold update_vehicle in Hv'. apply in_map_iff in Hv'.
    destruct Hv' as [r [<- Hr]].
    destruct (Vehicle.id r =? Vehicle.id vehicle); cbn in *;
      apply Hop; assumption.
Qed.

Lemma db_step_inv (d d' : DB) : db_step d d' -> db_inv d -> db_inv d'.
Proof.
  intros Hstep Hinv. destruct Hstep.
  - apply db_inv_register; assumption.
  - apply db_inv_add; assumption.
  - apply db_inv_delete; assumption.
  - apply db_inv_reschedule; assumption.
  - apply db_inv_bid; assumption.
  - apply db_inv_sweep; assumption.
Qed.


(** No step lowers the price of a vehicle. *)
Lemma db_step_price (d d' : DB) (v v' : Vehicle.t) :
  db_step d d' -> pk_unique d ->
  In v (vehicles d) -> In v' (vehicles d') ->
  Vehicle.id v' = Vehicle.id v ->
  Vehicle.current_price v <= Vehicle.current_price v'.
Proof.
  intros Hstep Hpk Hv Hv' Hid. destruct Hstep; cbn [vehicles committed] in Hv'.
  - rewrite (pk_same_row _ v' v Hpk Hv' Hv Hid). lia.
  - apply in_app_or in Hv'. destruct Hv' as [Hv'|[<-|[]]].
    + rewrite (pk_same_row _ v' v Hpk Hv' Hv Hid). lia.
    + exfalso.
      assert (existsb (fun r => Vehicle.id r =? Vehicle.id v0) (vehicles d)
              = true); [|congruence].
      apply existsb_exists. exists v. split; [exact Hv|].
      apply Z.eqb_eq. congruence.
  - apply filter_In in Hv'. destruct Hv' as [Hv' _].
    rewrite (pk_same_row _ v' v Hpk Hv' Hv Hid). lia.
  - unfold update_vehicle in Hv'. apply in_map_iff in Hv'.
    destruct Hv' as [r [<- Hr]].
    assert (r = v).
    { apply (pk_same_row _ r v Hpk Hr Hv).
      destruct (Vehicle.id r =? vehicle_id); exact Hid. }
    subst r. destruct (Vehicle.id v =? vehicle_id); cbn; lia.
  - unfold update_vehicle in Hv'. apply in_map_iff in Hv'.
    destruct Hv' as [r [<- Hr]].
    assert (r = v).
    { apply (pk_same_row _ r v Hpk Hr Hv).
      destruct (Vehicle.id r =? Vehicle.id vehicle); exact Hid. }
    subst r. destruct (Vehicle.id v =? Vehicle.id vehicle) eqn:Hk;
      [|lia].
    apply Z.eqb_eq in Hk.
    destruct (vehicle_by_id_id _ _ _ H) as [Hin _].
    rewrite (pk_same_row _ v vehicle Hpk Hv Hin Hk). cbn. lia.
  - unfold sweep_rows in Hv'. apply in_map_iff in Hv'.
    destruct Hv' as [r [<- Hr]].
    assert (r = v).
    { apply (pk_same_row _ r v Hpk Hr Hv).
      destruct (existsb _ _); [rewrite closed_row_id in Hid|]; exact Hid. }
    subst r. destruct (existsb _ _); [|lia].
    destruct (top_bid _ _); cbn; lia.
Qed.

End Invariants.

(** ** The highest-bid query *)

Section TopBid.

Context {E : Engine}.

Lemma top_bid_some (vehicle_id : Z) (d : DB) (b : Bid.t) :
  top_bid vehicle_id d = Some b ->
  In b (bids d) /\ Bid.vehicle_id b = vehicle_id
  /\ forall b', In b' (bids d) -> Bid.vehicle_id b' = vehicle_id ->
                Bid.amount b' <= Bid.amount b.
Proof.
  unfold top_bid. intros Htop.
  pose proof (order_by_desc_perm Bid.amount (bids_of vehicle_id d)) as Hp.
  pose proof (order_by_desc_sorted Bid.amount (bids_of vehicle_id d)) as Hs.
  destruct (order_by_desc Bid.amount (bids_of vehicle_id d)) as [|x l];
    [discriminate|].
  injection Htop as ->.
  assert (Hb : In b (bids_of vehicle_id d)).
  { apply (Permutation_in _ (Permutation_sym Hp)). left. reflexivity. }
  unfold bids_of in Hb. apply filter_In in Hb. destruct Hb as [Hb Hk].
  apply Z.eqb_eq in Hk. repeat split; try assumption.
  intros b' Hb' Hk'.
  assert (Hin : In b' (b :: l)).
  { apply (Permutation_in _ Hp). unfold bids_of. apply filter_In.
    split; [exact Hb'|]. apply Z.eqb_eq. exact Hk'. }
  inversion Hs as [|? ? _ Hall]; subst.
  destruct Hin as [<-|Hin]; [lia|].
  rewrite Forall_forall in Hall. apply Hall. exact Hin.
Qed.

Lemma top_bid_none (vehicle_id : Z) (d : DB) :
  top_bid vehicle_id d = None -> bids_of vehicle_id d = [].
Proof.
  unfold top_bid. intros Htop.
  pose proof (order_by_desc_perm Bid.amount (bids_of vehicle_id d)) as Hp.
  destruct (order_by_desc Bid.amount (bids_of vehicle_id d)) as [|x l];
    [|discriminate].
  apply Permutation_sym, Permutation_nil in Hp. exact Hp.
Qed.

End TopBid.

(** ** Bids of any precision *)

Section Decimal.

Context {E : Engine} {N : Numeric}.
Variable alive : WebSocket -> bool.

Lemma validate_bid_decimal_run (request : Request) (body : DecimalBid.t)
    (now : Z) (w : World) :
  snd (validate_bid_decimal request body now w) = w.
Proof.
  unfold validate_bid_decimal. rewrite bind_run, get_current_user_run.
  destruct (session_user request (db w)) as [user|]; [|reflexivity].
  destruct (User.is_admin user); [reflexivity|].
  rewrite bind_run. unfold get_db.
  destruct (vehicle_by_id (DecimalBid.vehicle_id body) (db w)) as [vehicle|];
    [|reflexivity].
  destruct (negb (Vehicle.is_active vehicle)); [reflexivity|].
  destruct (Vehicle.auction_end vehicle <=? now); [reflexivity|].
  destruct (Qle_bool _ _); reflexivity.
Qed.

Lemma validate_bid_decimal_return (request : Request) (body : DecimalBid.t)
    (now : Z) (w : World) (user : User.t) (vehicle : Vehicle.t) :
  fst (validate_bid_decimal request body now w) = Return (user, vehicle) ->
  session_user request (db w) = Some user
  /\ User.is_admin user = false
  /\ vehicle_by_id (DecimalBid.vehicle_id body) (db w) = Some vehicle
  /\ Vehicle.is_active vehicle = true
  /\ now < Vehicle.auction_end vehicle
  /\ Qlt (as_decimal (Vehicle.current_price vehicle))
         (DecimalBid.amount body).
Proof.
  unfold validate_bid_decimal. rewrite bind_run, get_current_user_run.
  destruct (session_user request (db w)) as [u|]; [|discriminate].
  destruct (User.is_admin u) eqn:Ha; [discriminate|].
  rewrite bind_run. unfold get_db.
  destruct (vehicle_by_id (DecimalBid.vehicle_id body) (db w)) as [v|];
    [|discriminate].
  destruct (Vehicle.is_active v) eqn:Hact; [|discriminate]. cbn [negb].
  destruct (Vehicle.auction_end v <=? now) eqn:Hend; [discriminate|].
  destruct (Qle_bool (DecimalBid.amount body)
                     (as_decimal (Vehicle.current_price v))) eqn:Hamt;
    [discriminate|].
  cbn. intros H. injection H as -> ->.
  apply Z.leb_gt in Hend.
  repeat split; try assumption; try reflexivity.
  apply Qnot_le_lt. intros Hle. apply Qle_bool_iff in Hle. congruence.
Qed.

Lemma validate_bid_decimal_raise (request : Request) (body : DecimalBid.t)
    (now : Z) (w : World) (e : Exception) :
  fst (validate_bid_decimal request body now w) = Raise e ->
  exists status_code detail,
    e = HTTPException status_code detail
    /\ In status_code [400; 401; 403; 404].
Proof.
  unfold validate_bid_decimal. rewrite bind_run, get_current_user_run.
  destruct (session_user request (db w)) as [u|].
  2: { cbn. intros H. injection H as <-. do 2 eexists.
       split; [reflexivity|cbn; auto]. }
  destruct (User.is_admin u).
  { cbn. intros H. injection H as <-. do 2 eexists.
    split; [reflexivity|cbn; auto]. }
  rewrite bind_run. unfold get_db.
  destruct (vehicle_by_id (DecimalBid.vehicle_id body) (db w)) as [v|].
  2: { cbn. intros H. injection H as <-. do 2 eexists.
       split; [reflexivity|cbn; auto]. }
  destruct (negb (Vehicle.is_active v)).
  { cbn. intros H. injection H as <-. do 2 eexists.
    split; [reflexivity|cbn; auto]. }
  destruct (Vehicle.auction_end v <=? now).
  { cbn. intros H. injection H as <-. do 2 eexists.
    split; [reflexivity|cbn; auto]. }
  destruct (Qle_bool _ _).
  { cbn. intros H. injection H as <-. do 2 eexists.
    split; [reflexivity|cbn; auto]. }
  cbn. discriminate.
Qed.

(** Rounding cannot take an amount below a price it exceeds. *)
Lemma price_le_quantize (p : Z) (a : Q) :
  Qlt (as_decimal p) a -> p <= quantize a.
Proof.
  intros Hlt. rewrite <- (quantize_exact p) at 1.
  apply quantize_mono. apply Qlt_le_weak. exact Hlt.
Qed.

Lemma api_place_bid_decimal_run (request : Request) (body : DecimalBid.t)
    (now new_id created : Z) (w : World) :
  api_place_bid_decimal alive request body now new_id created w
  = match fst (validate_bid_decimal request body now w) with
    | Raise e => (Raise e, w)
    | Return (user, vehicle) =>
        let new_bid :=
          Bid.mk new_id (quantize (DecimalBid.amount body)) (User.id user)
                 (Vehicle.id vehicle) created in
        (Return new_bid,
         mkWorld (committed vehicle new_bid (db w))
                 (filter alive (active w))
                 (sends w
                  ++ map (fun ws =>
                            (ws, bid_update (Vehicle.id vehicle)
                                   (quantize (DecimalBid.amount body))
                                   (User.username user)))
                         (active w)))
    end.
Proof.
  unfold api_place_bid_decimal. rewrite bind_run.
  pose proof (validate_bid_decimal_run request body now w) as Hw.
  destruct (validate_bid_decimal request body now w)
    as [[[user vehicle]|e] w'];
    cbn [fst snd] in *; subst w'; [|reflexivity].
  rewrite bind_run.
  change (commit_bid_decimal user vehicle body new_id created w)
    with (commit_bid user vehicle
            (BidCreate.mk (quantize (DecimalBid.amount body))
                          (DecimalBid.vehicle_id body))
            new_id created w).
  rewrite commit_bid_run, bind_run, broadcast_spec. reflexivity.
Qed.

Lemma Qle_bool_hundredths (z p : Z) :
  Qle_bool (as_decimal z) (as_decimal p) = (z <=? p).
Proof.
  unfold Qle_bool, as_decimal. cbn [Qnum Qden].
  destruct (z <=? p) eqn:H; [apply Z.leb_le in H|apply Z.leb_gt in H].
  - apply Z.leb_le. lia.
  - apply Z.leb_gt. lia.
Qed.

(** On an amount with at most two decimal places the handler is
    [api_place_bid] on that amount in hundredths. *)
Lemma api_place_bid_decimal_exact (request : Request) (z vehicle_id : Z)
    (now new_id created : Z) (w : World) :
  api_place_bid_decimal alive request
    (DecimalBid.mk (as_decimal z) vehicle_id) now new_id created w
  = api_place_bid alive request (BidCreate.mk z vehicle_id) now new_id
      created w.
Proof.
  rewrite api_place_bid_decimal_run, api_place_bid_run.
  unfold validate_bid_decimal, validate_bid.
  rewrite !bind_run, get_current_user_run.
  destruct (session_user request (db w)) as [user|]; [|reflexivity].
  destruct (User.is_admin user); [reflexivity|].
  rewrite !bind_run. unfold get_db.
  cbn [DecimalBid.vehicle_id BidCreate.vehicle_id DecimalBid.amount
       BidCreate.amount].
  destruct (vehicle_by_id vehicle_id (db w)) as [vehicle|]; [|reflexivity].
  destruct (negb (Vehicle.is_active vehicle)); [reflexivity|].
  destruct (Vehicle.auction_end vehicle <=? now); [reflexivity|].
  rewrite Qle_bool_hundredths.
  destruct (z <=? Vehicle.current_price vehicle); [reflexivity|].
  cbn [fst ret]. unfold as_decimal. rewrite quantize_exact. reflexivity.
Qed.

End Decimal.

Section Sequential.

Context {E : Engine} {N : Numeric}.

Lemma serve_db_step (c : Call) (w : World) :
  call_fresh c w = true ->
  db (serve c w) = db w \/ db_step (db w) (db (serve c w)).
Proof.
  intros Hfresh. destruct c as [alive0 o|alive0 request body now i t];
    cbn [serve].
  - apply run_db_step. exact Hfresh.
  - rewrite api_place_bid_decimal_run.
    destruct (fst (validate_bid_decimal request body now w))
      as [[user vehicle]|e] eqn:Hv; [|left; reflexivity].
    apply validate_bid_decimal_return in Hv.
    destruct Hv as (_ & _ & Hfind & Hact & _ & Hlt).
    right. cbn [snd db].
    destruct (vehicle_by_id_id _ _ _ Hfind) as [_ Hid].
    apply step_bid; cbn; try assumption; try reflexivity.
    + rewrite Hid. assumption.
    + apply price_le_quantize. exact Hlt.
Qed.

Lemma sequential_inv (w : World) : sequential w -> db_inv (db w).
Proof.
  induction 1 as [us|w c Hw IH Hfresh].
  - repeat split; cbn; try constructor; intros ? [].
  - destruct (serve_db_step c w Hfresh) as [Heq|Hstep].
    + rewrite Heq. exact IH.
    + apply (db_step_inv (db w)); assumption.
Qed.

Lemma reachable_sequential (w : World) : reachable w -> sequential w.
Proof.
  induction 1 as [us|w alive0 o Hw IH Hfresh].
  - apply sequential_initial.
  - apply (sequential_serve w (call alive0 o)); assumption.
Qed.

End Sequential.

(** * The auction, claim by claim *)

(** ** Bid placement *)

(** C3: on an existing vehicle and for a logged-in user who is not an
    admin, [api_place_bid] answers "Auction has ended" (Closed) when
    [is_active] is false; otherwise "Auction period has expired"
    (Expired) when [now >= auction_end], whatever [is_active] says;
    otherwise "Bid must be greater than current price" (TooLow) when
    [amount <= current_price]; otherwise it returns the new bid.  The
    checks are made in this order. *)
Theorem place_bid_check_order (alive : WebSocket -> bool)
    (request : Request) (bid : BidCreate.t) (now new_id created : Z)
    (w : World) (user : User.t) (vehicle : Vehicle.t) :
  session_user request (db w) = Some user ->
  User.is_admin user = false ->
  vehicle_by_id (BidCreate.vehicle_id bid) (db w) = Some vehicle ->
  fst (api_place_bid alive request bid now new_id created w)
  = (if negb (Vehicle.is_active vehicle) then
       Raise (HTTPException 400 AuctionEnded)
     else if Vehicle.auction_end vehicle <=? now then
       Raise (HTTPException 400 AuctionExpired)
     else if BidCreate.amount bid <=? Vehicle.current_price vehicle then
       Raise (HTTPException 400 (BidTooLow (Vehicle.current_price vehicle)))
     else
       Return (Bid.mk new_id (BidCreate.amount bid) (User.id user)
                      (Vehicle.id vehicle) created))
  /\ reason_of (HTTPException 400 AuctionEnded) = Some Closed
  /\ reason_of (HTTPException 400 AuctionExpired) = Some Expired
  /\ reason_of (HTTPException 400 (BidTooLow (Vehicle.current_price vehicle)))
     = Some TooLow.
Proof.
  intros Huser Hadmin Hfind.
  split; [|repeat split].
  rewrite api_place_bid_run.
  unfold validate_bid. rewrite bind_run, get_current_user_run, Huser, Hadmin.
  rewrite bind_run. unfold get_db. rewrite Hfind.
  destruct (negb (Vehicle.is_active vehicle)); [reflexivity|].
  destruct (Vehicle.auction_end vehicle <=? now); [reflexivity|].
  destruct (BidCreate.amount bid <=? Vehicle.current_price vehicle);
    reflexivity.
Qed.

Lemma place_bid_check_order_witness :
  session_user (as_user alice) (db showroom) = Some alice
  /\ User.is_admin alice = false
  /\ vehicle_by_id 1 (db showroom) = Some car
  /\ fst (api_place_bid everyone_alive (as_user alice)
            (BidCreate.mk 90000 1) 100 1 100 showroom)
     = Raise (HTTPException 400 AuctionExpired).
Proof.
  split; [reflexivity|]. split; [reflexivity|]. split; [reflexivity|].
  exact (proj1 (place_bid_check_order everyone_alive
                  (as_user alice) (BidCreate.mk 90000 1) 100 1 100
                  showroom alice car eq_refl eq_refl eq_refl)).
Defined.

(** C8: a caller with no user row behind the session, or with an admin's,
    is turned away by [api_place_bid] with 401 or 403 (Unauthorized)
    whatever the bid and the vehicle are: the vehicle is not looked at,
    nothing is written, nothing is broadcast, and the handler makes no
    second attempt. *)
Theorem place_bid_unauthorized (alive : WebSocket -> bool)
    (request : Request) (bid : BidCreate.t) (now new_id created : Z)
    (w : World) :
  session_user request (db w) = None
  \/ (exists user, session_user request (db w) = Some user
                   /\ User.is_admin user = true) ->
  exists e,
    api_place_bid alive request bid now new_id created w = (Raise e, w)
    /\ reason_of e = Some Unauthorized
    /\ (session_user request (db w) = None ->
        e = HTTPException 401 LoginRequired)
    /\ (session_user request (db w) <> None ->
        e = HTTPException 403 AdminsCannotBid).
Proof.
  intros Hwho. rewrite api_place_bid_run.
  unfold validate_bid. rewrite bind_run, get_current_user_run.
  destruct Hwho as [Hnone|[user [Hsome Hadmin]]].
  - rewrite Hnone. cbn. eexists. split; [reflexivity|].
    split; [reflexivity|]. split; [reflexivity|]. intros H. congruence.
  - rewrite Hsome, Hadmin. cbn. eexists. split; [reflexivity|].
    split; [reflexivity|]. split; [intros H; discriminate|reflexivity].
Qed.

Lemma place_bid_unauthorized_witness :
  (session_user (as_user admin) (db showroom) = None
   \/ (exists user, session_user (as_user admin) (db showroom) = Some user
                    /\ User.is_admin user = true))
  /\ exists e,
       api_place_bid everyone_alive (as_user admin)
         (BidCreate.mk 120000 1) 50 1 50 showroom = (Raise e, showroom)
       /\ e = HTTPException 403 AdminsCannotBid.
Proof.
  assert (Hwho :
    session_user (as_user admin) (db showroom) = None
    \/ (exists user, session_user (as_user admin) (db showroom) = Some user
                     /\ User.is_admin user = true)).
  { right. exists admin. split; reflexivity. }
  split; [exact Hwho|].
  destruct (place_bid_unauthorized everyone_alive
              (as_user admin) (BidCreate.mk 120000 1) 50 1 50 showroom Hwho)
    as [e [Hrun [_ [_ Hadmin]]]].
  exists e. split; [exact Hrun|]. apply Hadmin. discriminate.
Defined.

(** C10: when [api_place_bid] rejects, for whatever reason, the whole
    state is as before: no bid row, no change to any vehicle, nothing
    sent.  When it accepts, exactly one bid row is appended, the rows of
    the target vehicle get [current_price = amount] and keep every other
    column, and every other row and table is as before. *)
Theorem place_bid_atomic (alive : WebSocket -> bool) (request : Request)
    (bid : BidCreate.t) (now new_id created : Z) (w : World) :
  match api_place_bid alive request bid now new_id created w with
  | (Raise e, w') => w' = w
  | (Return new_bid, w') =>
      bids (db w') = bids (db w) ++ [new_bid]
      /\ users (db w') = users (db w)
      /\ vehicles (db w')
         = map (fun r =>
                  if Vehicle.id r =? BidCreate.vehicle_id bid
                  then Vehicle.set_current_price (BidCreate.amount bid) r
                  else r)
               (vehicles (db w))
      /\ Bid.id new_bid = new_id
      /\ Bid.amount new_bid = BidCreate.amount bid
      /\ Bid.vehicle_id new_bid = BidCreate.vehicle_id bid
      /\ Bid.created_at new_bid = created
      /\ (exists user, session_user request (db w) = Some user
                       /\ Bid.user_id new_bid = User.id user)
  end.
Proof.
  rewrite api_place_bid_run.
  destruct (fst (validate_bid request bid now w)) as [[user vehicle]|e]
    eqn:Hv; [|reflexivity].
  apply validate_bid_return in Hv.
  destruct Hv as (Huser & _ & Hfind & _).
  destruct (vehicle_by_id_id _ _ _ Hfind) as [_ Hid].
  cbn. rewrite Hid. repeat split. exists user. split; [exact Huser|reflexivity].
Qed.

(** ** Broadcast *)

(** C7: [broadcast] calls [send_json] once on every handle of
    [manager.active], in order; afterwards [manager.active] holds
    exactly the handles whose send did not fail; the call itself never
    raises, and the answer and the database of the request that
    broadcast ([api_place_bid]) are the same whether sends fail or
    not. *)
Theorem broadcast_prunes_dead (alive : WebSocket -> bool)
    (message : Message) (w : World) :
  fst (broadcast alive message w) = Return tt
  /\ sends (snd (broadcast alive message w))
     = sends w ++ map (fun ws => (ws, message)) (active w)
  /\ active (snd (broadcast alive message w)) = filter alive (active w)
  /\ (forall ws, In ws (active w) -> alive ws = false ->
                 ~ In ws (active (snd (broadcast alive message w))))
  /\ db (snd (broadcast alive message w)) = db w
  /\ forall request bid now new_id created,
       fst (api_place_bid alive request bid now new_id created w)
       = fst (api_place_bid everyone_alive request bid now new_id created w)
       /\ db (snd (api_place_bid alive request bid now new_id created w))
          = db (snd (api_place_bid everyone_alive request bid now new_id
                       created w)).
Proof.
  rewrite broadcast_spec. cbn [fst snd db active sends].
  repeat split.
  - intros ws _ Hdead Hin. apply filter_In in Hin. destruct Hin as [_ Hin].
    congruence.
  - rewrite !api_place_bid_run.
    destruct (fst (validate_bid request bid now w)) as [[user vehicle]|e];
      reflexivity.
  - rewrite !api_place_bid_run.
    destruct (fst (validate_bid request bid now w)) as [[user vehicle]|e];
      reflexivity.
Qed.

(** ** Bid history *)

(** C9: [api_get_bids] answers with the bids whose [vehicle_id] is the
    one asked for, each exactly once, newest [created_at] first, and
    changes nothing. *)
Theorem bid_history {E : Engine} (vehicle_id : Z) (w : World) :
  exists result,
    api_get_bids vehicle_id w = (Return result, w)
    /\ Permutation
         (filter (fun b => Bid.vehicle_id b =? vehicle_id) (bids (db w)))
         result
    /\ (forall b, In b result <->
                  In b (bids (db w)) /\ Bid.vehicle_id b = vehicle_id)
    /\ StronglySorted (fun a b => Bid.created_at b <= Bid.created_at a)
                      result.
Proof.
  exists (order_by_desc Bid.created_at (bids_of vehicle_id (db w))).
  split; [reflexivity|].
  pose proof (order_by_desc_perm Bid.created_at (bids_of vehicle_id (db w)))
    as Hp.
  split; [exact Hp|]. split; [|apply order_by_desc_sorted].
  intros b. split.
  - intros Hb. apply (Permutation_in _ (Permutation_sym Hp)) in Hb.
    unfold bids_of in Hb. apply filter_In in Hb.
    destruct Hb as [Hb Hk]. apply Z.eqb_eq in Hk. auto.
  - intros [Hb Hk]. apply (Permutation_in _ Hp). unfold bids_of.
    apply filter_In. split; [exact Hb|]. apply Z.eqb_eq. exact Hk.
Qed.

(** ** The sweep *)

Lemma sweep_leaves_none_expired {E : Engine} (now : Z) (d : DB) :
  filter (is_expired now) (sweep_rows (expired_vehicles now d) d) = [].
Proof.
  unfold sweep_rows, expired_vehicles.
  assert (Hall : forall vs l,
    (forall r, In r vs -> is_expired now r = true ->
               existsb (fun e => Vehicle.id e =? Vehicle.id r) l = true) ->
    filter (is_expired now)
      (map (fun r =>
              if existsb (fun e => Vehicle.id e =? Vehicle.id r) l
              then closed_row (top_bid (Vehicle.id r) d) r else r) vs)
    = []).
  { induction vs as [|x vs IH]; intros l Hl; [reflexivity|]. simpl.
    rewrite IH by (intros r Hr; apply Hl; right; exact Hr).
    destruct (existsb _ l) eqn:Hex.
    - unfold is_expired, closed_row.
      destruct (top_bid (Vehicle.id x) d); reflexivity.
    - destruct (is_expired now x) eqn:Hx; [|reflexivity].
      rewrite (Hl x (or_introl eq_refl) Hx) in Hex. discriminate. }
  apply Hall. intros r Hr Hx. apply existsb_exists. exists r.
  split; [apply filter_In; auto|apply Z.eqb_refl].
Qed.

(** C6: the sweep does nothing to a vehicle that is already closed: its
    row is left as it is, column by column, and the bids table is not
    touched; a second sweep at the same time changes nothing at all. *)
Theorem sweep_keeps_closed {E : Engine} (now : Z) (w : World) :
  pk_unique (db w) ->
  bids (db (snd (finalize_auctions now w))) = bids (db w)
  /\ (forall i v,
        nth_error (vehicles (db w)) i = Some v ->
        Vehicle.is_active v = false ->
        nth_error (vehicles (db (snd (finalize_auctions now w)))) i = Some v)
  /\ finalize_auctions now (snd (finalize_auctions now w))
     = (Return tt, snd (finalize_auctions now w)).
Proof.
  intros Hpk. rewrite finalize_auctions_spec. cbn [snd db bids vehicles].
  split; [reflexivity|]. split.
  - intros i v Hi Hclosed. rewrite sweep_rows_pk by exact Hpk.
    rewrite nth_error_map, Hi. cbn.
    unfold is_expired. rewrite Hclosed. reflexivity.
  - rewrite finalize_auctions_spec. cbn [db users vehicles bids active sends].
    unfold expired_vehicles at 1. cbn [vehicles].
    rewrite sweep_leaves_none_expired.
    unfold sweep_rows at 1. cbn [existsb vehicles]. rewrite map_id.
    reflexivity.
Qed.

Lemma sweep_keeps_closed_witness :
  pk_unique (db after_hours)
  /\ nth_error
       (vehicles (db (snd (@finalize_auctions stable_engine 101 after_hours))))
       1 = Some sold_car.
Proof.
  assert (Hpk : pk_unique (db after_hours)).
  { unfold pk_unique. cbn. repeat constructor; cbn; intuition discriminate. }
  split; [exact Hpk|].
  exact (proj1 (proj2 (@sweep_keeps_closed stable_engine 101 after_hours Hpk))
               1%nat sold_car eq_refl eq_refl).
Defined.




(** ** Ties *)

(** C5, as stated, fails: with two bids sharing the maximum, a storage
    engine that meets the contract of [ORDER BY amount DESC] may put the
    later bid first, and the sweep then awards the car to the later
    bidder; another engine awards it to the earlier one. *)
Lemma tie_goes_to_later_bid :
  bids_of 1 (db tied) = [Bid.mk 1 120000 2 1 90; Bid.mk 2 120000 3 1 95]
  /\ Bid.amount (Bid.mk 1 120000 2 1 90) = Bid.amount (Bid.mk 2 120000 3 1 95)
  /\ Bid.created_at (Bid.mk 1 120000 2 1 90)
     < Bid.created_at (Bid.mk 2 120000 3 1 95)
  /\ vehicles (db (snd (@finalize_auctions reversing_engine 101 tied)))
     = [Vehicle.mk 1 "Roadster" "" None 100000 100000 100 false
          (Some (Bid.user_id (Bid.mk 2 120000 3 1 95)))]
  /\ Bid.user_id (Bid.mk 2 120000 3 1 95)
     <> Bid.user_id (Bid.mk 1 120000 2 1 90)
  /\ vehicles (db (snd (@finalize_auctions stable_engine 101 tied)))
     = [Vehicle.mk 1 "Roadster" "" None 100000 100000 100 false
          (Some (Bid.user_id (Bid.mk 1 120000 2 1 90)))].
Proof.
  split; [reflexivity|]. split; [reflexivity|]. split; [reflexivity|].
  split; [reflexivity|]. split; [discriminate|reflexivity].
Qed.

(** C5, amended: the sweep awards an expired vehicle that has bids to
    the bidder of the row that [ORDER BY amount DESC] puts first, which
    is a bid of that vehicle with the maximal amount; which one it is
    among several with that amount is left to the storage engine. *)
Theorem sweep_winner_has_max_amount {E : Engine} (now : Z) (w : World)
    (i : nat) (v : Vehicle.t) :
  pk_unique (db w) ->
  nth_error (vehicles (db w)) i = Some v ->
  is_expired now v = true ->
  bids_of (Vehicle.id v) (db w) <> [] ->
  exists b,
    hd_error (order_by_desc Bid.amount (bids_of (Vehicle.id v) (db w)))
    = Some b
    /\ In b (bids (db w))
    /\ Bid.vehicle_id b = Vehicle.id v
    /\ (forall b', In b' (bids (db w)) ->
                   Bid.vehicle_id b' = Vehicle.id v ->
                   Bid.amount b' <= Bid.amount b)
    /\ nth_error (vehicles (db (snd (finalize_auctions now w)))) i
       = Some (Vehicle.set_owner_id (Some (Bid.user_id b))
                 (Vehicle.set_is_active false v)).
Proof.
  intros Hpk Hi Hx Hbids.
  destruct (top_bid (Vehicle.id v) (db w)) as [b|] eqn:Htop.
  - exists b. split; [exact Htop|].
    destruct (top_bid_some _ _ _ Htop) as (Hin & Hk & Hmax).
    repeat split; try assumption.
    rewrite finalize_auctions_spec. cbn [snd db vehicles].
    rewrite sweep_rows_pk by exact Hpk.
    rewrite nth_error_map, Hi. cbn [option_map]. rewrite Hx, Htop.
    reflexivity.
  - apply top_bid_none in Htop. contradiction.
Qed.

Lemma sweep_winner_has_max_amount_witness :
  pk_unique (db tied)
  /\ nth_error (vehicles (db tied)) 0 = Some car
  /\ is_expired 101 car = true
  /\ bids_of (Vehicle.id car) (db tied) <> []
  /\ exists b,
       Bid.amount b = 120000
       /\ nth_error
            (vehicles (db (snd (@finalize_auctions stable_engine 101 tied)))) 0
          = Some (Vehicle.set_owner_id (Some (Bid.user_id b))
                    (Vehicle.set_is_active false car)).
Proof.
  assert (Hpk : pk_unique (db tied)).
  { unfold pk_unique. cbn. repeat constructor; cbn; intuition discriminate. }
  assert (Hbids : bids_of (Vehicle.id car) (db tied) <> [])
    by (cbn; discriminate).
  split; [exact Hpk|]. split; [reflexivity|]. split; [reflexivity|].
  split; [exact Hbids|].
  destruct (@sweep_winner_has_max_amount stable_engine 101 tied 0%nat car
              Hpk eq_refl eq_refl Hbids)
    as [b [Hhd [_ [_ [_ Hrow]]]]].
  exists b. split; [|exact Hrow].
  cbn in Hhd. injection Hhd as <-. reflexivity.
Defined.

(** ** Commit *)

Lemma vehicle_by_id_update (k k' : Z) (f : Vehicle.t -> Vehicle.t)
    (us : list User.t) (vs : list Vehicle.t) (bs : list Bid.t) :
  (forall r, Vehicle.id (f r) = Vehicle.id r) ->
  vehicle_by_id k (mkDB us (update_vehicle k' f vs) bs)
  = option_map (fun r => if Vehicle.id r =? k' then f r else r)
               (vehicle_by_id k (mkDB us vs bs)).
Proof.
  intros Hid. unfold vehicle_by_id, update_vehicle. cbn [vehicles].
  induction vs as [|x vs IH]; [reflexivity|]. cbn [map find].
  assert (Hx : Vehicle.id (if Vehicle.id x =? k' then f x else x)
               = Vehicle.id x)
    by (destruct (Vehicle.id x =? k'); [apply Hid|reflexivity]).
  rewrite Hx. destruct (Vehicle.id x =? k); [reflexivity|exact IH].
Qed.




(** * More of the application *)

(** ** Connections *)

Lemma list_mem_app (x : WebSocket) (l l' : list WebSocket) :
  list_mem x (l ++ l') = list_mem x l || list_mem x l'.
Proof. unfold list_mem. apply existsb_app. Qed.

Lemma list_remove_absent (x : WebSocket) :
  forall l l' : list WebSocket,
    list_mem x l = false -> list_remove x (l ++ x :: l') = l ++ l'.
Proof.
  induction l as [|y l IH]; intros l' Hx; simpl.
  - rewrite Z.eqb_refl. reflexivity.
  - simpl in Hx. apply orb_false_iff in Hx. destruct Hx as [Hy Hx].
    rewrite Hy, IH by exact Hx. reflexivity.
Qed.

Lemma list_remove_perm (x : WebSocket) :
  forall l : list WebSocket,
    list_mem x l = true -> Permutation (x :: list_remove x l) l.
Proof.
  induction l as [|y l IH]; intros Hx; simpl in *; [discriminate|].
  destruct (y =? x) eqn:Hy.
  - apply Z.eqb_eq in Hy. subst y. apply Permutation_refl.
  - simpl in Hx. apply perm_trans with (y :: x :: list_remove x l).
    + apply perm_swap.
    + apply perm_skip. apply IH. exact Hx.
Qed.

Lemma connect_run (ws : WebSocket) (w : World) :
  connect ws w
  = (Return tt, mkWorld (db w) (active w ++ [ws]) (sends w)).
Proof. reflexivity. Qed.

Lemma disconnect_run (ws : WebSocket) (w : World) :
  disconnect ws w
  = (Return tt,
     mkWorld (db w)
             (if list_mem ws (active w) then list_remove ws (active w)
              else active w)
             (sends w)).
Proof.
  unfold disconnect. rewrite bind_run. unfold get_active.
  destruct (list_mem ws (active w)); [reflexivity|].
  destruct w; reflexivity.
Qed.

Lemma receive_loop_run (texts : list string) (w : World) :
  for_each texts (fun _ : string => ret tt) w = (Return tt, w).
Proof.
  induction texts as [|t texts IH]; [reflexivity|].
  cbn [for_each]. rewrite bind_run. exact IH.
Qed.

(** X1: a websocket client that connects, sends anything and leaves
    changes nothing but the order of [manager.active]: the handles are
    the same as before, each as often as before, and when its own handle
    was not in the list the whole state is exactly as before. *)
Theorem websocket_session_leaves_no_trace (ws : WebSocket)
    (texts : list string) (w : World) :
  fst (websocket_endpoint ws texts w) = Return tt
  /\ db (snd (websocket_endpoint ws texts w)) = db w
  /\ sends (snd (websocket_endpoint ws texts w)) = sends w
  /\ Permutation (active (snd (websocket_endpoint ws texts w))) (active w)
  /\ (list_mem ws (active w) = false ->
      snd (websocket_endpoint ws texts w) = w).
Proof.
  unfold websocket_endpoint.
  rewrite bind_run, connect_run, bind_run, receive_loop_run, disconnect_run.
  cbn [fst snd db active sends].
  assert (Hmem : list_mem ws (active w ++ [ws]) = true).
  { rewrite list_mem_app. cbn. rewrite Z.eqb_refl. apply orb_true_r. }
  rewrite Hmem. repeat split.
  - apply Permutation_cons_inv with (a := ws).
    apply perm_trans with (active w ++ [ws]).
    + apply list_remove_perm. exact Hmem.
    + apply Permutation_sym, Permutation_cons_append.
  - intros Hnew. rewrite list_remove_absent by exact Hnew.
    rewrite app_nil_r. destruct w; reflexivity.
Qed.

Lemma filter_twice {A} (f : A -> bool) (l : list A) :
  filter f (filter f l) = filter f l.
Proof.
  induction l as [|x l IH]; [reflexivity|]. simpl.
  destruct (f x) eqn:Hx; simpl; rewrite ?Hx, IH; reflexivity.
Qed.

(** X2: a broadcast leaves in [manager.active] only handles whose send
    succeeded, so a second broadcast is sent to exactly those handles,
    no longer to the pruned ones, and prunes nothing more as long as the
    same handles are alive. *)
Theorem broadcast_twice (alive : WebSocket -> bool) (m1 m2 : Message)
    (w : World) :
  broadcast alive m2 (snd (broadcast alive m1 w))
  = (Return tt,
     mkWorld (db w) (filter alive (active w))
             (sends w ++ map (fun ws => (ws, m1)) (active w)
                      ++ map (fun ws => (ws, m2)) (filter alive (active w))))
  /\ Forall (fun ws => alive ws = true)
            (active (snd (broadcast alive m1 w))).
Proof.
  rewrite !broadcast_spec. cbn [snd db active sends].
  rewrite filter_twice, <- app_assoc. split; [reflexivity|].
  apply Forall_forall. intros ws Hws. apply filter_In in Hws. tauto.
Qed.

(** ** Accounts and sessions *)

Lemma NoDup_snoc {A} (x : A) (l : list A) :
  NoDup l -> ~ In x l -> NoDup (l ++ [x]).
Proof.
  intros Hl Hx. apply Permutation_NoDup with (l := x :: l).
  - apply Permutation_cons_append.
  - constructor; assumption.
Qed.

(** X3: registration keeps user names and addresses unique.  A name or
    an address already taken gets the login page back with nothing
    written; otherwise exactly one row is appended, with the key the
    database gave, never an admin, and the session is that user's. *)
Theorem register_keeps_accounts_unique (request : Request)
    (username email password : string) (new_id : Z) (w : World) :
  accounts_unique (db w) ->
  accounts_unique (db (snd (register request username email password
                              new_id w)))
  /\ match register request username email password new_id w with
     | (Return (RedirectResponse _ _, session), w') =>
         w' = mkWorld
                (mkDB (users (db w)
                       ++ [User.mk new_id username email password false])
                      (vehicles (db w)) (bids (db w)))
                (active w) (sends w)
         /\ session = mkRequest (Some new_id)
         /\ ~ In username (map User.username (users (db w)))
         /\ ~ In email (map User.email (users (db w)))
     | (Return (TemplateResponse _ _, session), w') =>
         w' = w /\ session = request
         /\ exists u, In u (users (db w))
                      /\ (User.username u = username
                          \/ User.email u = email)
     | (Raise _, _) => False
     end.
Proof.
  intros [Hnames Hmails]. unfold register. rewrite bind_run. unfold get_db.
  destruct (find _ (users (db w))) as [u|] eqn:Hfind.
  - cbn. split; [split; assumption|]. split; [reflexivity|].
    split; [reflexivity|]. apply find_some in Hfind.
    destruct Hfind as [Hin Hsame]. exists u. split; [exact Hin|].
    apply orb_true_iff in Hsame.
    destruct Hsame as [H|H]; apply String.eqb_eq in H; auto.
  - assert (Hfree : forall u, In u (users (db w)) ->
                      User.username u <> username /\ User.email u <> email).
    { intros u Hu. pose proof (find_none _ _ Hfind u Hu) as Hno.
      cbn beta in Hno. apply orb_false_iff in Hno. destruct Hno as [H1 H2].
      apply String.eqb_neq in H1. apply String.eqb_neq in H2. auto. }
    assert (Hn : ~ In username (map User.username (users (db w)))).
    { intros Hin. apply in_map_iff in Hin. destruct Hin as [u [Hu Hin]].
      destruct (Hfree u Hin). contradiction. }
    assert (Hm : ~ In email (map User.email (users (db w)))).
    { intros Hin. apply in_map_iff in Hin. destruct Hin as [u [Hu Hin]].
      destruct (Hfree u Hin). contradiction. }
    cbn. split.
    + unfold accounts_unique. cbn. rewrite !map_app. cbn.
      split; apply NoDup_snoc; assumption.
    + repeat split; assumption.
Qed.

Lemma register_keeps_accounts_unique_witness :
  accounts_unique (db showroom)
  /\ accounts_unique
       (db (snd (register (mkRequest None) "carol" "carol@example.org"
                   "secret" 4 showroom))).
Proof.
  assert (Hu : accounts_unique (db showroom)).
  { split; cbn; repeat constructor; cbn; intuition discriminate. }
  split; [exact Hu|].
  exact (proj1 (register_keeps_accounts_unique (mkRequest None) "carol"
                  "carol@example.org" "secret" 4 showroom Hu)).
Defined.

Lemma user_by_id_unique (d : DB) (user : User.t) :
  NoDup (map User.id (users d)) -> In user (users d) ->
  user_by_id (User.id user) d = Some user.
Proof.
  unfold user_by_id. intros Hnd Hin.
  induction (users d) as [|x l IH]; [contradiction|]. cbn [find].
  cbn in Hnd. inversion Hnd as [|? ? Hx Hl]; subst.
  destruct Hin as [->|Hin]; [rewrite Z.eqb_refl; reflexivity|].
  destruct (User.id x =? User.id user) eqn:Hk; [|apply IH; assumption].
  apply Z.eqb_eq in Hk. exfalso. apply Hx. rewrite Hk.
  apply in_map. exact Hin.
Qed.

(** X4: logging in writes nothing.  It succeeds exactly when the first
    account with that user name has exactly that password, and the
    session it hands out is then recognised by [get_current_user] as
    that account, provided the account's key is not 0 (which the
    session check takes for "no user").  A failed login leaves the
    session as it was. *)
Theorem login_round_trip (request : Request) (username password : string)
    (w : World) :
  NoDup (map User.id (users (db w))) ->
  snd (login request username password w) = w
  /\ match fst (login request username password w) with
     | Return (RedirectResponse _ _, session) =>
         exists user,
           find (fun u => String.eqb (User.username u) username)
                (users (db w)) = Some user
           /\ User.password user = password
           /\ session = mkRequest (Some (User.id user))
           /\ (User.id user <> 0 ->
               get_current_user session w = (Return (Some user), w))
     | Return (TemplateResponse _ _, session) =>
         session = request
         /\ match find (fun u => String.eqb (User.username u) username)
                       (users (db w)) with
            | Some user => User.password user <> password
            | None => True
            end
     | Raise _ => False
     end.
Proof.
  intros Hpk. unfold login. rewrite bind_run. unfold get_db.
  destruct (find _ (users (db w))) as [user|] eqn:Hfind.
  - destruct (String.eqb (User.password user) password) eqn:Hpw;
      cbn [negb fst snd ret].
    + split; [reflexivity|].
      exists user. split; [reflexivity|].
      apply String.eqb_eq in Hpw. split; [exact Hpw|].
      split; [reflexivity|]. intros Hid.
      rewrite get_current_user_run. unfold session_user.
      cbn [session_user_id].
      apply Z.eqb_neq in Hid. rewrite Hid.
      rewrite user_by_id_unique; [reflexivity|exact Hpk|].
      apply find_some in Hfind. tauto.
    + split; [reflexivity|]. split; [reflexivity|].
      apply String.eqb_neq. exact Hpw.
  - cbn [fst snd ret]. repeat split.
Qed.

Lemma login_round_trip_witness :
  NoDup (map User.id (users (db showroom)))
  /\ snd (login (mkRequest None) "alice" "secret" showroom) = showroom.
Proof.
  assert (Hpk : NoDup (map User.id (users (db showroom)))).
  { cbn. repeat constructor; cbn; intuition discriminate. }
  split; [exact Hpk|].
  exact (proj1 (login_round_trip (mkRequest None) "alice" "secret" showroom
                  Hpk)).
Defined.

(** ** The admin panel *)

Lemma require_admin_deny (request : Request) (w : World) :
  (forall user, session_user request (db w) = Some user ->
                User.is_admin user = false) ->
  require_admin request w = (Raise (HTTPException 403 AdminOnly), w).
Proof.
  intros Hno. unfold require_admin.
  rewrite bind_run, get_current_user_run.
  destruct (session_user request (db w)) as [user|]; [|reflexivity].
  rewrite (Hno user eq_refl). reflexivity.
Qed.

Lemma require_admin_allow (request : Request) (w : World) (user : User.t) :
  session_user request (db w) = Some user -> User.is_admin user = true ->
  require_admin request w = (Return user, w).
Proof.
  intros Hu Ha. unfold require_admin.
  rewrite bind_run, get_current_user_run, Hu, Ha. reflexivity.
Qed.

(** X5: whoever is not logged in as an admin can neither add, delete nor
    reschedule a vehicle: each of the three posts answers 403 and leaves
    the database, the connections and the sends as they were, and the
    admin page sends the caller to the login page without sweeping. *)
Theorem admin_posts_need_admin {E : Engine} (alive : WebSocket -> bool)
    (request : Request) (w : World) :
  (forall user, session_user request (db w) = Some user ->
                User.is_admin user = false) ->
  (forall title description starting_price end_dt image_url new_id,
     admin_add_vehicle alive request title description starting_price
       end_dt image_url new_id w
     = (Raise (HTTPException 403 AdminOnly), w))
  /\ (forall vehicle_id,
        admin_delete_vehicle alive request vehicle_id w
        = (Raise (HTTPException 403 AdminOnly), w))
  /\ (forall vehicle_id end_dt,
        admin_update_auction request vehicle_id end_dt w
        = (Raise (HTTPException 403 AdminOnly), w))
  /\ (forall now,
        admin_panel request now w = (Return (redirect "/login" 303), w)).
Proof.
  intros Hno. repeat split; intros.
  - unfold admin_add_vehicle.
    rewrite bind_run, require_admin_deny by exact Hno. reflexivity.
  - unfold admin_delete_vehicle.
    rewrite bind_run, require_admin_deny by exact Hno. reflexivity.
  - unfold admin_update_auction.
    rewrite bind_run, require_admin_deny by exact Hno. reflexivity.
  - unfold admin_panel. rewrite bind_run, get_current_user_run.
    destruct (session_user request (db w)) as [user|] eqn:Hu;
      [|reflexivity].
    rewrite (Hno user eq_refl). reflexivity.
Qed.

Lemma admin_posts_need_admin_witness :
  (forall user, session_user (as_user alice) (db showroom) = Some user ->
                User.is_admin user = false)
  /\ @admin_delete_vehicle everyone_alive (as_user alice) 1 showroom
     = (Raise (HTTPException 403 AdminOnly), showroom).
Proof.
  assert (Hno : forall user,
            session_user (as_user alice) (db showroom) = Some user ->
            User.is_admin user = false).
  { intros user H. cbn in H. injection H as <-. reflexivity. }
  split; [exact Hno|].
  exact (proj1 (proj2 (@admin_posts_need_admin stable_engine everyone_alive
                         (as_user alice) showroom Hno)) 1).
Defined.

Lemma filter_all {A} (f : A -> bool) (l : list A) :
  (forall x, In x l -> f x = true) -> filter f l = l.
Proof.
  induction l as [|x l IH]; intros Hall; [reflexivity|]. simpl.
  rewrite (Hall x (or_introl eq_refl)), IH; [reflexivity|].
  intros y Hy. apply Hall. right. exact Hy.
Qed.

Lemma find_app_new {A} (f : A -> bool) (l : list A) (x : A) :
  existsb f l = false -> find f (l ++ [x]) = if f x then Some x else None.
Proof.
  induction l as [|y l IH]; intros Hno; [reflexivity|]. simpl in *.
  apply orb_false_iff in Hno. destruct Hno as [Hy Hl].
  rewrite Hy. apply IH. exact Hl.
Qed.

(** X6: a vehicle an admin adds under an unused key can be fetched at
    once, open, unowned and priced at its starting price, and is
    announced to every connection; deleting it again gives back the
    database there was before. *)
Theorem add_then_fetch_then_delete (alive : WebSocket -> bool)
    (request : Request) (user : User.t) (title description : string)
    (starting_price end_dt : Z) (image_url : option string) (new_id : Z)
    (w : World) :
  session_user request (db w) = Some user ->
  User.is_admin user = true ->
  existsb (fun v => Vehicle.id v =? new_id) (vehicles (db w)) = false ->
  fk_valid (db w) ->
  let vehicle :=
    Vehicle.mk new_id title description image_url starting_price
               starting_price end_dt true None in
  let w1 :=
    snd (admin_add_vehicle alive request title description starting_price
           end_dt image_url new_id w) in
  fst (admin_add_vehicle alive request title description starting_price
         end_dt image_url new_id w) = Return (RedirectResponse "/admin" 303)
  /\ sends w1 = sends w ++ map (fun ws => (ws, vehicle_added vehicle))
                               (active w)
  /\ api_get_vehicle new_id w1 = (Return vehicle, w1)
  /\ fst (admin_delete_vehicle alive request new_id w1)
     = Return (RedirectResponse "/admin" 303)
  /\ db (snd (admin_delete_vehicle alive request new_id w1)) = db w.
Proof.
  intros Hu Ha Hnew Hfk vehicle w1.
  assert (Hw1 : admin_add_vehicle alive request title description
                  starting_price end_dt image_url new_id w
                = (Return (RedirectResponse "/admin" 303),
                   mkWorld (mkDB (users (db w)) (vehicles (db w) ++ [vehicle])
                                 (bids (db w)))
                           (filter alive (active w))
                           (sends w ++ map (fun ws => (ws, vehicle_added vehicle))
                                           (active w)))).
  { unfold admin_add_vehicle.
    rewrite bind_run, (require_admin_allow request w user Hu Ha).
    rewrite bind_run. unfold get_db. rewrite bind_run. unfold put_db.
    rewrite bind_run, broadcast_spec. reflexivity. }
  rewrite Hw1. subst w1. rewrite Hw1. cbn [fst snd sends].
  set (w1 := mkWorld _ _ _).
  assert (Hfind : vehicle_by_id new_id (db w1) = Some vehicle).
  { unfold vehicle_by_id. cbn [w1 db vehicles].
    rewrite find_app_new by exact Hnew.
    cbn [Vehicle.id vehicle]. rewrite Z.eqb_refl. reflexivity. }
  assert (Hsess : session_user request (db w1) = Some user) by exact Hu.
  split; [reflexivity|]. split; [reflexivity|].
  split; [unfold api_get_vehicle; rewrite bind_run; unfold get_db;
          rewrite Hfind; reflexivity|].
  unfold admin_delete_vehicle.
  rewrite bind_run, (require_admin_allow request w1 user Hsess Ha).
  rewrite bind_run. unfold get_db. rewrite Hfind.
  rewrite bind_run. unfold put_db. rewrite bind_run, broadcast_spec.
  cbn [fst snd db]. split; [reflexivity|].
  cbn [w1 db users vehicles bids Vehicle.id vehicle].
  rewrite filter_app. cbn [filter Vehicle.id]. rewrite Z.eqb_refl.
  cbn [negb]. rewrite app_nil_r.
  rewrite (filter_all (fun r => negb (Vehicle.id r =? new_id))).
  rewrite (filter_all (fun b => negb (Bid.vehicle_id b =? new_id))).
  - destruct (db w); reflexivity.
  - intros b Hb. apply negb_true_iff. apply Z.eqb_neq. intros Hk.
    specialize (Hfk b Hb). rewrite Hk in Hfk. congruence.
  - intros r Hr. apply negb_true_iff.
    destruct (Vehicle.id r =? new_id) eqn:Hk; [|reflexivity].
    assert (existsb (fun v => Vehicle.id v =? new_id) (vehicles (db w))
            = true); [|congruence].
    apply existsb_exists. exists r. auto.
Qed.

Lemma add_then_fetch_then_delete_witness :
  session_user (as_user admin) (db showroom) = Some admin
  /\ User.is_admin admin = true
  /\ existsb (fun v => Vehicle.id v =? 2) (vehicles (db showroom)) = false
  /\ fk_valid (db showroom)
  /\ db (snd (admin_delete_vehicle everyone_alive (as_user admin) 2
                (snd (admin_add_vehicle everyone_alive (as_user admin)
                        "Coupe" "" 50000 40 None 2 showroom))))
     = db showroom.
Proof.
  assert (Hfk : fk_valid (db showroom)) by (intros b []).
  split; [reflexivity|]. split; [reflexivity|]. split; [reflexivity|].
  split; [exact Hfk|].
  exact (proj2 (proj2 (proj2 (proj2
           (add_then_fetch_then_delete everyone_alive (as_user admin) admin
              "Coupe" "" 50000 40 None 2 showroom eq_refl eq_refl eq_refl
              Hfk))))).
Defined.

Lemma find_filter_same (k : Z) (vs : list Vehicle.t) :
  find (fun v => Vehicle.id v =? k)
       (filter (fun r => negb (Vehicle.id r =? k)) vs) = None.
Proof.
  induction vs as [|x vs IH]; [reflexivity|]. simpl.
  destruct (Vehicle.id x =? k) eqn:Hx; simpl; [exact IH|].
  rewrite Hx. exact IH.
Qed.

Lemma find_filter_other (k k0 : Z) (vs : list Vehicle.t) :
  k <> k0 ->
  find (fun v => Vehicle.id v =? k)
       (filter (fun r => negb (Vehicle.id r =? k0)) vs)
  = find (fun v => Vehicle.id v =? k) vs.
Proof.
  intros Hk. induction vs as [|x vs IH]; [reflexivity|]. simpl.
  destruct (Vehicle.id x =? k0) eqn:Hx0; simpl.
  - destruct (Vehicle.id x =? k) eqn:Hx; [|exact IH].
    apply Z.eqb_eq in Hx0. apply Z.eqb_eq in Hx. congruence.
  - destruct (Vehicle.id x =? k); [reflexivity|exact IH].
Qed.

Lemma bids_filter_same (k : Z) (bs : list Bid.t) :
  filter (fun b => Bid.vehicle_id b =? k)
         (filter (fun b => negb (Bid.vehicle_id b =? k)) bs) = [].
Proof.
  induction bs as [|b bs IH]; [reflexivity|]. simpl.
  destruct (Bid.vehicle_id b =? k) eqn:Hb; simpl; [exact IH|].
  rewrite Hb. exact IH.
Qed.

Lemma bids_filter_other (k k0 : Z) (bs : list Bid.t) :
  k <> k0 ->
  filter (fun b => Bid.vehicle_id b =? k)
         (filter (fun b => negb (Bid.vehicle_id b =? k0)) bs)
  = filter (fun b => Bid.vehicle_id b =? k) bs.
Proof.
  intros Hk. induction bs as [|b bs IH]; [reflexivity|]. simpl.
  destruct (Bid.vehicle_id b =? k0) eqn:Hb0; simpl.
  - destruct (Bid.vehicle_id b =? k) eqn:Hb; [|exact IH].
    apply Z.eqb_eq in Hb0. apply Z.eqb_eq in Hb. congruence.
  - destruct (Bid.vehicle_id b =? k); [f_equal|]; exact IH.
Qed.

Lemma order_by_desc_nil {E : Engine} (key : Bid.t -> Z) :
  order_by_desc key [] = [].
Proof.
  apply Permutation_nil. apply order_by_desc_perm.
Qed.

(** X7: deleting a vehicle takes its bids with it and nothing else.  For
    an admin, an unknown key answers 404 and changes nothing; a known
    one is announced to every connection, after which the vehicle is
    not found any more, its bid history is empty, and every other
    vehicle and its bids are as before. *)
Theorem delete_takes_bids_along {E : Engine} (alive : WebSocket -> bool)
    (request : Request) (user : User.t) (vehicle_id : Z) (w : World) :
  session_user request (db w) = Some user ->
  User.is_admin user = true ->
  match vehicle_by_id vehicle_id (db w) with
  | None =>
      admin_delete_vehicle alive request vehicle_id w
      = (Raise (HTTPException 404 VehicleNotFound), w)
  | Some _ =>
      exists w',
        admin_delete_vehicle alive request vehicle_id w
        = (Return (RedirectResponse "/admin" 303), w')
        /\ users (db w') = users (db w)
        /\ sends w' = sends w ++ map (fun ws => (ws, vehicle_removed vehicle_id))
                                     (active w)
        /\ api_get_vehicle vehicle_id w'
           = (Raise (HTTPException 404 VehicleNotFound), w')
        /\ api_get_bids vehicle_id w' = (Return [], w')
        /\ forall k, k <> vehicle_id ->
             vehicle_by_id k (db w') = vehicle_by_id k (db w)
             /\ bids_of k (db w') = bids_of k (db w)
  end.
Proof.
  intros Hu Ha. unfold admin_delete_vehicle.
  rewrite bind_run, (require_admin_allow request w user Hu Ha).
  rewrite bind_run. unfold get_db.
  destruct (vehicle_by_id vehicle_id (db w)) as [v|] eqn:Hfind;
    [|reflexivity].
  destruct (vehicle_by_id_id _ _ _ Hfind) as [_ Hid].
  rewrite bind_run. unfold put_db. rewrite bind_run, broadcast_spec.
  rewrite Hid. cbn [db active sends]. eexists. split; [reflexivity|].
  cbn [db users sends]. split; [reflexivity|]. split; [reflexivity|].
  split; [|split].
  - unfold api_get_vehicle. rewrite bind_run. unfold get_db, vehicle_by_id.
    cbn [db vehicles]. rewrite find_filter_same. reflexivity.
  - unfold api_get_bids. rewrite bind_run. unfold get_db, bids_of.
    cbn [db bids]. rewrite bids_filter_same, order_by_desc_nil.
    reflexivity.
  - intros k Hk. unfold vehicle_by_id, bids_of. cbn [vehicles bids].
    rewrite find_filter_other, bids_filter_other by exact Hk.
    split; reflexivity.
Qed.

Lemma delete_takes_bids_along_witness :
  session_user (as_user admin) (db after_hours) = Some admin
  /\ User.is_admin admin = true
  /\ exists w',
       @admin_delete_vehicle everyone_alive (as_user admin) 2 after_hours
       = (Return (RedirectResponse "/admin" 303), w')
       /\ @api_get_bids stable_engine 2 w' = (Return [], w').
Proof.
  split; [reflexivity|]. split; [reflexivity|].
  destruct (@delete_takes_bids_along stable_engine everyone_alive
              (as_user admin) admin 2 after_hours eq_refl eq_refl)
    as [w' [Hrun [_ [_ [_ [Hbids _]]]]]].
  exists w'. split; assumption.
Defined.

(** X8: rescheduling writes the new end into the rows with that key and
    touches nothing else: no other column, no other vehicle, no bid, and
    nobody is told.  It does not reopen a closed vehicle: a bid on it is
    still refused as ended.  On a vehicle still open it decides alone
    whether a bid above the price is in time. *)
Theorem reschedule_moves_only_the_deadline (alive : WebSocket -> bool)
    (request : Request) (user : User.t) (vehicle_id end_dt : Z)
    (vehicle : Vehicle.t) (w : World) :
  session_user request (db w) = Some user ->
  User.is_admin user = true ->
  vehicle_by_id vehicle_id (db w) = Some vehicle ->
  exists w',
    admin_update_auction request vehicle_id end_dt w
    = (Return (RedirectResponse "/admin" 303), w')
    /\ users (db w') = users (db w) /\ bids (db w') = bids (db w)
    /\ active w' = active w /\ sends w' = sends w
    /\ api_get_vehicle vehicle_id w'
       = (Return (Vehicle.set_auction_end end_dt vehicle), w')
    /\ (forall k, k <> vehicle_id ->
          vehicle_by_id k (db w') = vehicle_by_id k (db w))
    /\ forall bidder_request bidder bid now new_id created,
         session_user bidder_request (db w) = Some bidder ->
         User.is_admin bidder = false ->
         BidCreate.vehicle_id bid = vehicle_id ->
         fst (api_place_bid alive bidder_request bid now new_id created w')
         = if negb (Vehicle.is_active vehicle) then
             Raise (HTTPException 400 AuctionEnded)
           else if end_dt <=? now then
             Raise (HTTPException 400 AuctionExpired)
           else if BidCreate.amount bid <=? Vehicle.current_price vehicle
           then
             Raise (HTTPException 400
                      (BidTooLow (Vehicle.current_price vehicle)))
           else
             Return (Bid.mk new_id (BidCreate.amount bid) (User.id bidder)
                            vehicle_id created).
Proof.
  intros Hu Ha Hfind. unfold admin_update_auction.
  rewrite bind_run, (require_admin_allow request w user Hu Ha).
  rewrite bind_run. unfold get_db. rewrite Hfind.
  rewrite bind_run, modify_vehicle_run.
  destruct (vehicle_by_id_id _ _ _ Hfind) as [_ Hid]. rewrite Hid.
  eexists. split; [reflexivity|]. cbn [db users bids active sends].
  assert (Hlook : forall k,
            vehicle_by_id k
              (mkDB (users (db w))
                    (update_vehicle vehicle_id
                       (Vehicle.set_auction_end end_dt) (vehicles (db w)))
                    (bids (db w)))
            = option_map
                (fun r => if Vehicle.id r =? vehicle_id
                          then Vehicle.set_auction_end end_dt r else r)
                (vehicle_by_id k (db w))).
  { intros k. rewrite vehicle_by_id_update by reflexivity.
    destruct (db w); reflexivity. }
  repeat (split; [reflexivity|]). split; [|split].
  - unfold api_get_vehicle. rewrite bind_run. unfold get_db. cbn [db].
    rewrite Hlook, Hfind. cbn [option_map]. rewrite Hid, Z.eqb_refl.
    reflexivity.
  - intros k Hk. rewrite Hlook.
    destruct (vehicle_by_id k (db w)) as [r|] eqn:Hr; [|reflexivity].
    destruct (vehicle_by_id_id _ _ _ Hr) as [_ Hrk]. cbn [option_map].
    rewrite Hrk. apply Z.eqb_neq in Hk. rewrite Hk. reflexivity.
  - intros bidder_request bidder bid now new_id created Hb Hna Hbid.
    rewrite api_place_bid_run. unfold validate_bid.
    rewrite bind_run, get_current_user_run. cbn [db].
    change (session_user bidder_request
              (mkDB (users (db w))
                    (update_vehicle vehicle_id
                       (Vehicle.set_auction_end end_dt) (vehicles (db w)))
                    (bids (db w))))
      with (session_user bidder_request (db w)).
    rewrite Hb, Hna, bind_run. unfold get_db. cbn [db].
    rewrite Hbid, Hlook, Hfind. cbn [option_map]. rewrite Hid, Z.eqb_refl.
    cbn [Vehicle.set_auction_end Vehicle.is_active Vehicle.auction_end
         Vehicle.current_price Vehicle.id].
    destruct (negb (Vehicle.is_active vehicle)); [reflexivity|].
    destruct (end_dt <=? now); [reflexivity|].
    destruct (BidCreate.amount bid <=? Vehicle.current_price vehicle);
      [reflexivity|].
    cbn. rewrite Hid. reflexivity.
Qed.

Lemma reschedule_moves_only_the_deadline_witness :
  session_user (as_user admin) (db after_hours) = Some admin
  /\ User.is_admin admin = true
  /\ vehicle_by_id 2 (db after_hours) = Some sold_car
  /\ exists w',
       admin_update_auction (as_user admin) 2 500 after_hours
       = (Return (RedirectResponse "/admin" 303), w')
       /\ fst (api_place_bid everyone_alive (as_user bob)
                 (BidCreate.mk 90000 2) 200 3 200 w')
          = Raise (HTTPException 400 AuctionEnded).
Proof.
  split; [reflexivity|]. split; [reflexivity|]. split; [reflexivity|].
  destruct (reschedule_moves_only_the_deadline everyone_alive
              (as_user admin) admin 2 500 sold_car after_hours
              eq_refl eq_refl eq_refl)
    as [w' [Hrun [_ [_ [_ [_ [_ [_ Hbid]]]]]]]].
  exists w'. split; [exact Hrun|].
  exact (Hbid (as_user bob) bob (BidCreate.mk 90000 2) 200 3 200
              eq_refl eq_refl eq_refl).
Defined.


(** ** Closed for good *)




(** ** Sweeping again, and what the listing shows *)

(** X13: sweeping at one time and again at a later one gives the state
    a single sweep at the later time gives. *)
Theorem sweep_twice_is_sweep_late {E : Engine} (t1 t2 : Z) (w : World) :
  pk_unique (db w) -> t1 <= t2 ->
  finalize_auctions t2 (snd (finalize_auctions t1 w))
  = finalize_auctions t2 w.
Proof.
  intros Hpk Hle. rewrite !finalize_auctions_spec.
  cbn [snd db users vehicles bids active sends].
  set (d1 := mkDB (users (db w))
                  (sweep_rows (expired_vehicles t1 (db w)) (db w))
                  (bids (db w))).
  assert (Hpk1 : pk_unique d1).
  { unfold pk_unique, d1. cbn [vehicles]. rewrite sweep_rows_ids.
    exact Hpk. }
  assert (Hrows : sweep_rows (expired_vehicles t2 d1) d1
                  = sweep_rows (expired_vehicles t2 (db w)) (db w)).
  { rewrite (sweep_rows_pk t2 d1 Hpk1), (sweep_rows_pk t2 (db w) Hpk).
    transitivity
      (map (fun r => if is_expired t2 r
                     then closed_row (top_bid (Vehicle.id r) (db w)) r
                     else r)
           (vehicles d1)).
    { apply map_ext. intros r.
      rewrite (top_bid_bids _ d1 (db w)) by reflexivity. reflexivity. }
    unfold d1. cbn [vehicles]. rewrite (sweep_rows_pk t1 (db w) Hpk).
    rewrite map_map. apply map_ext. intros r.
    destruct (is_expired t1 r) eqn:H1; [|reflexivity].
    assert (H2 : is_expired t2 r = true).
    { unfold is_expired in *. apply andb_true_iff in H1.
      destruct H1 as [Ha He]. rewrite Ha. cbn.
      apply Z.leb_le in He. apply Z.leb_le. lia. }
    rewrite H2.
    assert (H3 : is_expired t2
                   (closed_row (top_bid (Vehicle.id r) (db w)) r) = false).
    { unfold is_expired, closed_row.
      destruct (top_bid (Vehicle.id r) (db w)); reflexivity. }
    rewrite H3. reflexivity. }
  rewrite Hrows. reflexivity.
Qed.

Lemma sweep_twice_is_sweep_late_witness :
  pk_unique (db second_bid) /\ 50 <= 101
  /\ @finalize_auctions stable_engine 101
       (snd (@finalize_auctions stable_engine 50 second_bid))
     = @finalize_auctions stable_engine 101 second_bid.
Proof.
  assert (Hpk : pk_unique (db second_bid)).
  { unfold pk_unique. cbn. repeat constructor; cbn; intuition discriminate. }
  assert (Hle : 50 <= 101) by (intros H; discriminate).
  split; [exact Hpk|]. split; [exact Hle|].
  exact (@sweep_twice_is_sweep_late stable_engine 50 101 second_bid Hpk Hle).
Defined.

Lemma listing_after_sweep {E : Engine} (now : Z) (d : DB) :
  pk_unique d ->
  filter Vehicle.is_active (sweep_rows (expired_vehicles now d) d)
  = filter (fun v => Vehicle.is_active v && (now <? Vehicle.auction_end v))
           (vehicles d).
Proof.
  intros Hpk. rewrite sweep_rows_pk by exact Hpk.
  induction (vehicles d) as [|r vs IH]; [reflexivity|]. cbn [map filter].
  rewrite IH. unfold is_expired.
  destruct (Vehicle.is_active r) eqn:Ha; cbn [andb].
  - rewrite Z.ltb_antisym.
    destruct (Vehicle.auction_end r <=? now); cbn [negb].
    + assert (Hc : Vehicle.is_active
                     (closed_row (top_bid (Vehicle.id r) d) r) = false)
        by (unfold closed_row; destruct (top_bid _ _); reflexivity).
      rewrite Hc. reflexivity.
    + rewrite Ha. reflexivity.
  - rewrite Ha. reflexivity.
Qed.

(** X14: the listing and the home page show exactly the vehicles that
    were open and not yet due when the page was asked for, each of them
    untouched; the vehicles that were open and due are closed by that
    very request and are not shown. *)
Theorem listing_shows_running_auctions {E : Engine} (request : Request)
    (now : Z) (w : World) :
  pk_unique (db w) ->
  api_get_vehicles now w
  = (Return (filter (fun v => Vehicle.is_active v
                              && (now <? Vehicle.auction_end v))
                    (vehicles (db w))),
     snd (finalize_auctions now w))
  /\ home request now w
     = (Return (index_html
                  (filter (fun v => Vehicle.is_active v
                                    && (now <? Vehicle.auction_end v))
                          (vehicles (db w)))
                  (session_user request (db w))),
        snd (finalize_auctions now w))
  /\ filter (is_expired now)
            (vehicles (db (snd (finalize_auctions now w)))) = [].
Proof.
  intros Hpk. split; [|split].
  - unfold api_get_vehicles.
    rewrite bind_run, finalize_auctions_spec, bind_run. unfold get_db.
    cbn [db vehicles snd]. rewrite listing_after_sweep by exact Hpk.
    reflexivity.
  - unfold home.
    rewrite bind_run, finalize_auctions_spec, bind_run. unfold get_db.
    rewrite bind_run, get_current_user_run.
    cbn [db vehicles snd]. rewrite listing_after_sweep by exact Hpk.
    reflexivity.
  - rewrite finalize_auctions_spec. cbn [snd db vehicles].
    apply sweep_leaves_none_expired.
Qed.

Lemma listing_shows_running_auctions_witness :
  pk_unique (db after_hours)
  /\ fst (@api_get_vehicles stable_engine 101 after_hours) = Return [].
Proof.
  assert (Hpk : pk_unique (db after_hours)).
  { unfold pk_unique. cbn. repeat constructor; cbn; intuition discriminate. }
  split; [exact Hpk|].
  rewrite (proj1 (@listing_shows_running_auctions stable_engine
                    (mkRequest None) 101 after_hours Hpk)).
  reflexivity.
Defined.

(** ** Rows that are never rewritten *)

Lemma run_users {E : Engine} (alive : WebSocket -> bool) (o : Op)
    (w : World) :
  users (db (run alive o w)) = users (db w)
  \/ exists request username email password new_id,
       o = op_register request username email password new_id
       /\ users (db (run alive o w))
          = users (db w) ++ [User.mk new_id username email password false].
Proof.
  destruct o; cbn [run].
  - unfold register. rewrite bind_run. unfold get_db.
    destruct (find _ (users (db w))); [left; reflexivity|].
    right. do 5 eexists. split; reflexivity.
  - left. unfold admin_add_vehicle. rewrite bind_run.
    pose proof (require_admin_run request w) as Hw.
    destruct (require_admin request w) as [[u|e] w']; cbn [snd] in Hw;
      subst w'; [|reflexivity].
    rewrite bind_run. unfold get_db. rewrite bind_run. unfold put_db.
    rewrite bind_run, broadcast_spec. reflexivity.
  - left. unfold admin_delete_vehicle. rewrite bind_run.
    pose proof (require_admin_run request w) as Hw.
    destruct (require_admin request w) as [[u|e] w']; cbn [snd] in Hw;
      subst w'; [|reflexivity].
    rewrite bind_run. unfold get_db.
    destruct (vehicle_by_id vehicle_id (db w)); [|reflexivity].
    rewrite bind_run. unfold put_db. rewrite bind_run, broadcast_spec.
    reflexivity.
  - left. unfold admin_update_auction. rewrite bind_run.
    pose proof (require_admin_run request w) as Hw.
    destruct (require_admin request w) as [[u|e] w']; cbn [snd] in Hw;
      subst w'; [|reflexivity].
    rewrite bind_run. unfold get_db.
    destruct (vehicle_by_id vehicle_id (db w)); [|reflexivity].
    rewrite bind_run, modify_vehicle_run. reflexivity.
  - left. rewrite api_place_bid_run.
    destruct (fst (validate_bid request bid now w)) as [[user vehicle]|e];
      reflexivity.
  - left. unfold api_get_vehicles.
    rewrite bind_run, finalize_auctions_spec. reflexivity.
  - left. reflexivity.
  - left. reflexivity.
  - left. rewrite disconnect_run. reflexivity.
Qed.

(** X16: no request removes or rewrites an account, and none makes an
    admin: after any request the users table is the one before, or the
    one before with one new account that is not an admin.  A bid, once
    stored, is never rewritten either: it is still there after any
    request, unless its vehicle has been deleted. *)
Theorem accounts_and_bids_are_kept {E : Engine} (alive : WebSocket -> bool)
    (o : Op) (w : World) :
  keys_fresh o w = true ->
  (exists added,
     users (db (run alive o w)) = users (db w) ++ added
     /\ (List.length added <= 1)%nat
     /\ Forall (fun u => User.is_admin u = false) added)
  /\ forall b, In b (bids (db w)) ->
       In b (bids (db (run alive o w)))
       \/ vehicle_by_id (Bid.vehicle_id b) (db (run alive o w)) = None.
Proof.
  intros Hfresh. split.
  - destruct (run_users alive o w)
      as [Heq|(request & username & email & password & new_id & _ & Heq)].
    + exists []. rewrite Heq, app_nil_r. repeat split; auto.
    + eexists. split; [exact Heq|]. split; [cbn; lia|].
      repeat constructor.
  - intros b Hb.
    destruct (run_db_step alive o w Hfresh) as [Heq|Hstep];
      [left; rewrite Heq; exact Hb|].
    destruct Hstep as [d u|d x Hnew|d k0|d k0 e|d vehicle nb Hfind Hnb Hact Hlt
                      |d now]; cbn [bids committed];
      try (left; exact Hb).
    + destruct (Bid.vehicle_id b =? k0) eqn:Hk.
      * right. apply Z.eqb_eq in Hk. rewrite Hk. unfold vehicle_by_id.
        cbn [vehicles]. apply find_filter_same.
      * left. apply filter_In. split; [exact Hb|]. rewrite Hk. reflexivity.
    + left. apply in_or_app. left. exact Hb.
Qed.

Lemma accounts_and_bids_are_kept_witness :
  keys_fresh (op_delete_vehicle (as_user admin) 2) after_hours = true
  /\ In (Bid.mk 2 120000 3 1 90)
        (bids (db (@run stable_engine everyone_alive
                     (op_delete_vehicle (as_user admin) 2) after_hours))).
Proof.
  split; [reflexivity|].
  destruct (proj2 (@accounts_and_bids_are_kept stable_engine everyone_alive
                     (op_delete_vehicle (as_user admin) 2) after_hours
                     eq_refl)
                  (Bid.mk 2 120000 3 1 90) (or_intror (or_introl eq_refl)))
    as [Hin|Hgone].
  - exact Hin.
  - exfalso. vm_compute in Hgone. discriminate Hgone.
Defined.

(** ** Register, then log in *)

(** X19: an account that has just been registered can log in: with the
    name and the password given at registration, [login] hands out the
    very session registration handed out. *)
Theorem register_then_login (request request' : Request)
    (username email password : string) (new_id : Z) (w : World)
    (url : string) (status_code : Z) (session : Request) :
  fst (register request username email password new_id w)
  = Return (RedirectResponse url status_code, session) ->
  login request' username password
    (snd (register request username email password new_id w))
  = (Return (RedirectResponse "/" 303, session),
     snd (register request username email password new_id w)).
Proof.
  unfold register. rewrite bind_run. unfold get_db.
  destruct (find _ (users (db w))) as [u|] eqn:Hfind; [discriminate|].
  cbn [fst snd ret bind put_db]. intros Hret.
  injection Hret as _ _ <-.
  unfold login. rewrite bind_run. unfold get_db. cbn [db users].
  rewrite find_app_new.
  - cbn [User.username User.password User.id].
    rewrite !String.eqb_refl. reflexivity.
  - destruct (existsb _ (users (db w))) eqn:Hex; [|reflexivity].
    apply existsb_exists in Hex. destruct Hex as [x [Hx Hname]].
    pose proof (find_none _ _ Hfind x Hx) as Hno. cbn beta in Hno.
    rewrite Hname in Hno. discriminate.
Qed.

Lemma register_then_login_witness :
  fst (register (mkRequest None) "carol" "carol@example.org" "secret" 4
         showroom)
  = Return (RedirectResponse "/" 303, mkRequest (Some 4))
  /\ fst (login (mkRequest None) "carol" "secret"
            (snd (register (mkRequest None) "carol" "carol@example.org"
                    "secret" 4 showroom)))
     = Return (RedirectResponse "/" 303, mkRequest (Some 4)).
Proof.
  split; [reflexivity|].
  rewrite (register_then_login (mkRequest None) (mkRequest None) "carol"
             "carol@example.org" "secret" 4 showroom "/" 303
             (mkRequest (Some 4)) eq_refl).
  reflexivity.
Defined.

(** ** Bids, prices and owners, request by request *)

Section Rising.

Variable R : Bid.t -> Bid.t -> Prop.



End Rising.


Lemma in_bids_of (k : Z) (d : DB) (b : Bid.t) :
  In b (bids_of k d) <-> In b (bids d) /\ Bid.vehicle_id b = k.
Proof.
  unfold bids_of. rewrite filter_In, Z.eqb_eq. reflexivity.
Qed.



Section Ledger.

Context {E : Engine}.





End Ledger.

Section SequentialLedger.

Context {E : Engine} {N : Numeric}.


End SequentialLedger.

Lemma fine_print_sequential : @sequential stable_engine half_up fine_print.
Proof.
  unfold fine_print.
  repeat (apply sequential_serve; [|reflexivity]).
  apply reachable_sequential. unfold opening_day.
  apply reachable_run; [apply reachable_initial|reflexivity].
Qed.

(** ** The price *)

(** C2, as stated, fails: the price of a vehicle can fall.  Alice's bid
    of 1600.00 and bob's of 1500.00 are both validated while the price
    is 1000.00; alice's commit takes the price to 1600.00, and bob's
    commit then takes it down to 1500.00. *)
Lemma price_falls_under_stale_commit :
  option_map Vehicle.current_price (vehicle_by_id 1 (db showroom))
  = Some 100000
  /\ fst (validate_bid (as_user alice) (BidCreate.mk 160000 1) 50 showroom)
     = Return (alice, car)
  /\ fst (validate_bid (as_user bob) (BidCreate.mk 150000 1) 50 showroom)
     = Return (bob, car)
  /\ option_map Vehicle.current_price
       (vehicle_by_id 1
          (db (snd (commit_bid alice car (BidCreate.mk 160000 1) 1 50
                      showroom))))
     = Some 160000
  /\ option_map Vehicle.current_price
       (vehicle_by_id 1
          (db (snd (commit_bid bob car (BidCreate.mk 150000 1) 2 51
                      (snd (commit_bid alice car (BidCreate.mk 160000 1) 1 50
                              showroom))))))
     = Some 150000
  /\ 150000 < 160000.
Proof. repeat split. Qed.

(** C2, amended: when every request runs from its first line to its
    commit before the next one starts, the [current_price] of every
    vehicle is the stored amount of the bid accepted last for it, or its
    [starting_price] when no bid was accepted; every request, whatever
    it is and whatever the precision of a bid, leaves this so and leaves
    no vehicle at a lower price than it had; and an admin's add creates
    the vehicle, open and unowned, with [current_price] equal to
    [starting_price]. *)
Theorem price_follows_bids {E : Engine} {N : Numeric} (w : World) :
  sequential w ->
  (forall v, In v (vehicles (db w)) -> price_ok (db w) v)
  /\ (forall c, call_fresh c w = true ->
        (forall v', In v' (vehicles (db (serve c w))) ->
                    price_ok (db (serve c w)) v')
        /\ forall v v',
             In v (vehicles (db w)) ->
             In v' (vehicles (db (serve c w))) ->
             Vehicle.id v' = Vehicle.id v ->
             Vehicle.current_price v <= Vehicle.current_price v')
  /\ (forall alive request user title description starting_price end_dt
             image_url new_id,
        session_user request (db w) = Some user ->
        User.is_admin user = true ->
        existsb (fun v => Vehicle.id v =? new_id) (vehicles (db w)) = false ->
        vehicle_by_id new_id
          (db (serve (call alive
                        (op_add_vehicle request title description
                           starting_price end_dt image_url new_id)) w))
        = Some (Vehicle.mk new_id title description image_url starting_price
                           starting_price end_dt true None)).
Proof.
  intros Hseq. destruct (sequential_inv w Hseq) as (Hpk & Hfk & Hpr & Hop).
  split; [exact Hpr|]. split.
  - intros c Hfresh. split.
    + assert (Hnext : sequential (serve c w))
        by (apply sequential_serve; assumption).
      destruct (sequential_inv _ Hnext) as (_ & _ & Hpr' & _). exact Hpr'.
    + intros v v' Hv Hv' Hid.
      destruct (serve_db_step c w Hfresh) as [Heq|Hstep].
      * rewrite Heq in Hv'. rewrite (pk_same_row _ v' v Hpk Hv' Hv Hid). lia.
      * apply (db_step_price (db w) (db (serve c w))); assumption.
  - intros alive request user title description starting_price end_dt
           image_url new_id Hu Ha Hnew.
    cbn [serve run]. unfold admin_add_vehicle.
    rewrite bind_run, (require_admin_allow request w user Hu Ha).
    rewrite bind_run. unfold get_db. rewrite bind_run. unfold put_db.
    rewrite bind_run, broadcast_spec.
    unfold vehicle_by_id, ret. cbn [fst snd db vehicles].
    rewrite find_app_new by exact Hnew.
    cbn [Vehicle.id]. rewrite Z.eqb_refl. reflexivity.
Qed.

Lemma price_follows_bids_witness :
  @sequential stable_engine half_up fine_print
  /\ forall v, In v (vehicles (db fine_print)) ->
               Vehicle.current_price v = 100000.
Proof.
  split; [exact fine_print_sequential|].
  intros v Hv.
  rewrite (proj1 (@price_follows_bids stable_engine half_up fine_print
                    fine_print_sequential) v Hv).
  destruct Hv as [<-|[]]. reflexivity.
Defined.

(** ** A bid of any precision *)

(** X20: a bid whose amount has any number of decimal places goes
    through the same checks in the same order, the amount being
    compared as it was submitted.  When it is refused nothing is
    written.  When it is accepted, the bid and the price are stored as
    the amount rounded to hundredths, which is never below the price
    replaced but can be equal to it; everything else is as for an
    amount in hundredths, and on such an amount the handler is
    [api_place_bid]. *)
Theorem place_bid_any_precision {N : Numeric} (alive : WebSocket -> bool)
    (request : Request) (body : DecimalBid.t) (now new_id created : Z)
    (w : World) (user : User.t) (vehicle : Vehicle.t) :
  session_user request (db w) = Some user ->
  User.is_admin user = false ->
  vehicle_by_id (DecimalBid.vehicle_id body) (db w) = Some vehicle ->
  api_place_bid_decimal alive request body now new_id created w
  = (if negb (Vehicle.is_active vehicle) then
       (Raise (HTTPException 400 AuctionEnded), w)
     else if Vehicle.auction_end vehicle <=? now then
       (Raise (HTTPException 400 AuctionExpired), w)
     else if Qle_bool (DecimalBid.amount body)
                      (as_decimal (Vehicle.current_price vehicle)) then
       (Raise (HTTPException 400
                 (BidTooLow (Vehicle.current_price vehicle))), w)
     else
       let stored := quantize (DecimalBid.amount body) in
       let new_bid :=
         Bid.mk new_id stored (User.id user) (DecimalBid.vehicle_id body)
                created in
       (Return new_bid,
        mkWorld
          (mkDB (users (db w))
                (update_vehicle (DecimalBid.vehicle_id body)
                   (Vehicle.set_current_price stored) (vehicles (db w)))
                (bids (db w) ++ [new_bid]))
          (filter alive (active w))
          (sends w
           ++ map (fun ws =>
                     (ws, bid_update (DecimalBid.vehicle_id body) stored
                            (User.username user)))
                  (active w))))
  /\ (Qle_bool (DecimalBid.amount body)
               (as_decimal (Vehicle.current_price vehicle)) = false ->
      Vehicle.current_price vehicle <= quantize (DecimalBid.amount body))
  /\ forall z,
       api_place_bid_decimal alive request
         (DecimalBid.mk (as_decimal z) (DecimalBid.vehicle_id body))
         now new_id created w
       = api_place_bid alive request
           (BidCreate.mk z (DecimalBid.vehicle_id body)) now new_id created w.
Proof.
  intros Hu Hna Hfind. split; [|split].
  - rewrite api_place_bid_decimal_run. unfold validate_bid_decimal.
    rewrite bind_run, get_current_user_run, Hu, Hna.
    rewrite bind_run. unfold get_db. rewrite Hfind.
    destruct (vehicle_by_id_id _ _ _ Hfind) as [_ Hid].
    destruct (negb (Vehicle.is_active vehicle)); [reflexivity|].
    destruct (Vehicle.auction_end vehicle <=? now); [reflexivity|].
    destruct (Qle_bool _ _); [reflexivity|].
    cbn [fst ret]. unfold committed. cbn [Bid.amount]. rewrite Hid.
    reflexivity.
  - intros Hgt. apply price_le_quantize. apply Qnot_le_lt. intros Hle.
    apply Qle_bool_iff in Hle. congruence.
  - intros z. apply api_place_bid_decimal_exact.
Qed.

Lemma place_bid_any_precision_witness :
  session_user (as_user alice) (db showroom) = Some alice
  /\ User.is_admin alice = false
  /\ vehicle_by_id 1 (db showroom) = Some car
  /\ fst (@api_place_bid_decimal half_up everyone_alive (as_user alice)
            (DecimalBid.mk (Qmake 1000001 1000) 1) 50 1 50 showroom)
     = Return (Bid.mk 1 100000 2 1 50).
Proof.
  split; [reflexivity|]. split; [reflexivity|]. split; [reflexivity|].
  rewrite (proj1 (@place_bid_any_precision half_up everyone_alive
                    (as_user alice) (DecimalBid.mk (Qmake 1000001 1000) 1)
                    50 1 50 showroom alice car eq_refl eq_refl eq_refl)).
  reflexivity.
Defined.






(** X11: in a state where no two bids on a vehicle have the same amount,
    the highest-bid query has one possible answer, so every storage
    engine gives the same sweep. *)
Theorem sweep_is_engine_independent (E E' : Engine) (now : Z) (w : World) :
  no_ties (db w) ->
  (forall k, @top_bid E' k (db w) = @top_bid E k (db w))
  /\ @finalize_auctions E' now w = @finalize_auctions E now w.
Proof.
  intros Hno.
  assert (Htop : forall k, @top_bid E' k (db w) = @top_bid E k (db w)).
  { intros k.
    destruct (@top_bid E' k (db w)) as [b'|] eqn:H',
             (@top_bid E k (db w)) as [b|] eqn:H.
    - destruct (@top_bid_some E' _ _ _ H') as (Hin' & Hk' & Hmax').
      destruct (@top_bid_some E _ _ _ H) as (Hin & Hk & Hmax).
      f_equal. apply Hno; try assumption; [congruence|].
      specialize (Hmax' b Hin Hk). specialize (Hmax b' Hin' Hk'). lia.
    - destruct (@top_bid_some E' _ _ _ H') as (Hin' & Hk' & _).
      apply (@top_bid_none E) in H.
      assert (Hb : In b' (bids_of k (db w))) by (apply in_bids_of; auto).
      rewrite H in Hb. destruct Hb.
    - destruct (@top_bid_some E _ _ _ H) as (Hin & Hk & _).
      apply (@top_bid_none E') in H'.
      assert (Hb : In b (bids_of k (db w))) by (apply in_bids_of; auto).
      rewrite H' in Hb. destruct Hb.
    - reflexivity. }
  split; [exact Htop|].
  rewrite (@finalize_auctions_spec E'), (@finalize_auctions_spec E).
  unfold sweep_rows. f_equal. f_equal. f_equal. apply map_ext. intros r.
  rewrite Htop. reflexivity.
Qed.

Lemma sweep_is_engine_independent_witness :
  no_ties (db second_bid)
  /\ @finalize_auctions reversing_engine 101 second_bid
     = @finalize_auctions stable_engine 101 second_bid.
Proof.
  assert (Hno : no_ties (db second_bid)).
  { intros b b' Hb Hb' _ Hamt.
    destruct Hb as [<-|[<-|[]]]; destruct Hb' as [<-|[<-|[]]];
      try reflexivity; discriminate Hamt. }
  split; [exact Hno|].
  exact (proj2 (sweep_is_engine_independent stable_engine reversing_engine
                  101 second_bid Hno)).
Defined.

(** ** From a bid to the award *)

Lemma vehicle_by_id_map (k : Z) (g : Vehicle.t -> Vehicle.t)
    (us : list User.t) (vs : list Vehicle.t) (bs : list Bid.t) :
  (forall r, Vehicle.id (g r) = Vehicle.id r) ->
  vehicle_by_id k (mkDB us (map g vs) bs)
  = option_map g (vehicle_by_id k (mkDB us vs bs)).
Proof.
  intros Hid. unfold vehicle_by_id. cbn [vehicles].
  induction vs as [|x vs IH]; [reflexivity|]. cbn [map find].
  rewrite Hid. destruct (Vehicle.id x =? k); [reflexivity|exact IH].
Qed.

Lemma vehicle_by_id_committed (vehicle : Vehicle.t) (b : Bid.t) (d : DB) :
  vehicle_by_id (Vehicle.id vehicle) d = Some vehicle ->
  vehicle_by_id (Vehicle.id vehicle) (committed vehicle b d)
  = Some (Vehicle.set_current_price (Bid.amount b) vehicle).
Proof.
  intros Hfind. unfold committed.
  rewrite vehicle_by_id_update by reflexivity.
  change (vehicle_by_id (Vehicle.id vehicle)
            (mkDB (users d) (vehicles d) (bids d ++ [b])))
    with (vehicle_by_id (Vehicle.id vehicle) d).
  rewrite Hfind. cbn [option_map]. rewrite Z.eqb_refl. reflexivity.
Qed.

(** What an accepted bid of any precision has gone through and left. *)
Lemma accepted_decimal {N : Numeric} (alive : WebSocket -> bool)
    (request : Request) (body : DecimalBid.t) (now new_id created : Z)
    (w : World) (b : Bid.t) :
  fst (api_place_bid_decimal alive request body now new_id created w)
  = Return b ->
  exists user vehicle,
    session_user request (db w) = Some user
    /\ vehicle_by_id (DecimalBid.vehicle_id body) (db w) = Some vehicle
    /\ Vehicle.id vehicle = DecimalBid.vehicle_id body
    /\ Vehicle.is_active vehicle = true
    /\ now < Vehicle.auction_end vehicle
    /\ Vehicle.current_price vehicle <= Bid.amount b
    /\ b = Bid.mk new_id (quantize (DecimalBid.amount body)) (User.id user)
                  (DecimalBid.vehicle_id body) created
    /\ snd (api_place_bid_decimal alive request body now new_id created w)
       = mkWorld (committed vehicle b (db w)) (filter alive (active w))
           (sends w
            ++ map (fun ws =>
                      (ws, bid_update (DecimalBid.vehicle_id body)
                             (Bid.amount b) (User.username user)))
                   (active w)).
Proof.
  rewrite api_place_bid_decimal_run.
  destruct (fst (validate_bid_decimal request body now w))
    as [[user vehicle]|e] eqn:Hv; [|discriminate].
  apply validate_bid_decimal_return in Hv.
  destruct Hv as (Hu & _ & Hfind & Hact & Hnow & Hlt).
  destruct (vehicle_by_id_id _ _ _ Hfind) as [_ Hid].
  cbn [fst snd]. intros Hret. injection Hret as <-.
  exists user, vehicle. cbn [Bid.amount]. rewrite Hid.
  repeat split; try assumption.
  apply price_le_quantize. exact Hlt.
Qed.

(** The highest bid once a bid at or above every other has been added. *)
Lemma top_bid_committed {E : Engine} (vehicle : Vehicle.t) (b : Bid.t)
    (d : DB) :
  Bid.vehicle_id b = Vehicle.id vehicle ->
  Vehicle.current_price vehicle <= Bid.amount b ->
  (forall b', In b' (bids d) -> Bid.vehicle_id b' = Vehicle.id vehicle ->
              Bid.amount b' <= Vehicle.current_price vehicle) ->
  exists t,
    top_bid (Vehicle.id vehicle) (committed vehicle b d) = Some t
    /\ In t (bids (committed vehicle b d))
    /\ Bid.vehicle_id t = Vehicle.id vehicle
    /\ Bid.amount t = Bid.amount b
    /\ (Vehicle.current_price vehicle < Bid.amount b -> t = b).
Proof.
  intros Hbk Hle Hold.
  assert (Hb : In b (bids (committed vehicle b d)))
    by (cbn; apply in_or_app; right; left; reflexivity).
  destruct (top_bid (Vehicle.id vehicle) (committed vehicle b d))
    as [t|] eqn:Htop.
  - destruct (top_bid_some _ _ _ Htop) as (Ht & Htk & Hmax).
    exists t. split; [reflexivity|]. split; [exact Ht|].
    split; [exact Htk|].
    specialize (Hmax b Hb Hbk).
    cbn [committed bids] in Ht. apply in_app_or in Ht.
    destruct Ht as [Ht|[<-|[]]].
    + specialize (Hold t Ht Htk). split; [lia|]. intros Hlt. lia.
    + split; [reflexivity|]. intros _. reflexivity.
  - apply top_bid_none in Htop.
    assert (Hin : In b (bids_of (Vehicle.id vehicle) (committed vehicle b d)))
      by (apply in_bids_of; auto).
    rewrite Htop in Hin. destruct Hin.
Qed.

(** X17: a bid of any precision that is accepted, on a vehicle none of
    whose bids exceeds its price, is then a highest bid on that
    vehicle: on every storage engine the highest-bid query answers with
    a bid of the amount just stored, and with this very bid when that
    amount is strictly above the price replaced.  The stored amount is
    the price the vehicle is then fetched with, and every connection is
    told the vehicle, that price and the bidder's name. *)
Theorem accepted_bid_leads {N : Numeric} (alive : WebSocket -> bool)
    (request : Request) (body : DecimalBid.t) (now new_id created : Z)
    (w : World) (b : Bid.t) :
  (forall vehicle b',
     vehicle_by_id (DecimalBid.vehicle_id body) (db w) = Some vehicle ->
     In b' (bids (db w)) ->
     Bid.vehicle_id b' = DecimalBid.vehicle_id body ->
     Bid.amount b' <= Vehicle.current_price vehicle) ->
  fst (api_place_bid_decimal alive request body now new_id created w)
  = Return b ->
  let w' :=
    snd (api_place_bid_decimal alive request body now new_id created w) in
  Bid.amount b = quantize (DecimalBid.amount body)
  /\ (exists vehicle,
        fst (api_get_vehicle (DecimalBid.vehicle_id body) w')
        = Return vehicle
        /\ Vehicle.current_price vehicle = Bid.amount b)
  /\ (forall E' : Engine,
        exists t,
          @top_bid E' (DecimalBid.vehicle_id body) (db w') = Some t
          /\ Bid.amount t = Bid.amount b)
  /\ (forall vehicle,
        vehicle_by_id (DecimalBid.vehicle_id body) (db w) = Some vehicle ->
        Vehicle.current_price vehicle < Bid.amount b ->
        forall E' : Engine,
          @top_bid E' (DecimalBid.vehicle_id body) (db w') = Some b)
  /\ exists user,
       session_user request (db w) = Some user
       /\ sends w'
          = sends w
            ++ map (fun ws =>
                      (ws, bid_update (DecimalBid.vehicle_id body)
                             (Bid.amount b) (User.username user)))
                   (active w).
Proof.
  intros Hold Hret w'.
  destruct (accepted_decimal alive request body now new_id created w b Hret)
    as (user & vehicle & Hu & Hfind & Hid & _ & _ & Hle & Hb & Hw').
  fold w' in Hw'.
  assert (Hbk : Bid.vehicle_id b = Vehicle.id vehicle)
    by (rewrite Hb, Hid; reflexivity).
  assert (Hbound : forall b', In b' (bids (db w)) ->
            Bid.vehicle_id b' = Vehicle.id vehicle ->
            Bid.amount b' <= Vehicle.current_price vehicle).
  { intros b' Hb' Hk'. apply (Hold vehicle b' Hfind Hb'). congruence. }
  assert (Hdb : db w' = committed vehicle b (db w))
    by (rewrite Hw'; reflexivity).
  split; [rewrite Hb; reflexivity|]. split; [|split; [|split]].
  - eexists. unfold api_get_vehicle. rewrite bind_run. unfold get_db.
    rewrite Hdb, <- Hid, vehicle_by_id_committed by (rewrite Hid; exact Hfind).
    split; reflexivity.
  - intros E'.
    destruct (@top_bid_committed E' vehicle b (db w) Hbk Hle Hbound)
      as [t (Htop & _ & _ & Hamt & _)].
    exists t. rewrite Hdb, <- Hid. split; assumption.
  - intros vehicle0 Hfind0 Hlt E'.
    assert (vehicle0 = vehicle) by congruence. subst vehicle0.
    destruct (@top_bid_committed E' vehicle b (db w) Hbk Hle Hbound)
      as [t (Htop & _ & _ & _ & Hsame)].
    rewrite Hdb, <- Hid, Htop, (Hsame Hlt). reflexivity.
  - exists user. split; [exact Hu|]. rewrite Hw'. reflexivity.
Qed.

Lemma accepted_bid_leads_witness :
  (forall vehicle b',
     vehicle_by_id 1 (db first_bid) = Some vehicle ->
     In b' (bids (db first_bid)) -> Bid.vehicle_id b' = 1 ->
     Bid.amount b' <= Vehicle.current_price vehicle)
  /\ fst (@api_place_bid_decimal half_up everyone_alive (as_user bob)
            (DecimalBid.mk (Qmake 1200004 1000) 1) 95 2 95 first_bid)
     = Return (Bid.mk 2 120000 3 1 95)
  /\ exists t,
       @top_bid reversing_engine 1
         (db (snd (@api_place_bid_decimal half_up everyone_alive
                     (as_user bob) (DecimalBid.mk (Qmake 1200004 1000) 1)
                     95 2 95 first_bid)))
       = Some t
       /\ Bid.amount t = 120000.
Proof.
  assert (Hold : forall vehicle b',
            vehicle_by_id 1 (db first_bid) = Some vehicle ->
            In b' (bids (db first_bid)) -> Bid.vehicle_id b' = 1 ->
            Bid.amount b' <= Vehicle.current_price vehicle).
  { intros vehicle b' Hv Hb' _. vm_compute in Hv. injection Hv as <-.
    destruct Hb' as [<-|[]]. intros H. discriminate H. }
  split; [exact Hold|]. split; [reflexivity|].
  exact (proj1 (proj2 (proj2
           (@accepted_bid_leads half_up everyone_alive (as_user bob)
              (DecimalBid.mk (Qmake 1200004 1000) 1) 95 2 95 first_bid
              (Bid.mk 2 120000 3 1 95) Hold eq_refl)))
         reversing_engine).
Defined.

(** X18: from a bid to the award.  With unique vehicle keys and no bid
    above the price of the vehicle, when a bid of any precision is
    accepted and the next thing that happens is a sweep at or after the
    end of the auction, the vehicle is closed at the stored amount of
    that bid and goes to the bidder of a bid of that amount: to this
    very bidder when the stored amount is strictly above the price
    replaced, and otherwise to whichever bid of that amount the storage
    engine puts first. *)
Theorem last_bidder_wins {E : Engine} {N : Numeric}
    (alive : WebSocket -> bool) (request : Request) (body : DecimalBid.t)
    (now new_id created : Z) (w : World) (b : Bid.t) (t : Z) :
  pk_unique (db w) ->
  (forall vehicle b',
     vehicle_by_id (DecimalBid.vehicle_id body) (db w) = Some vehicle ->
     In b' (bids (db w)) ->
     Bid.vehicle_id b' = DecimalBid.vehicle_id body ->
     Bid.amount b' <= Vehicle.current_price vehicle) ->
  fst (api_place_bid_decimal alive request body now new_id created w)
  = Return b ->
  (forall vehicle,
     vehicle_by_id (DecimalBid.vehicle_id body) (db w) = Some vehicle ->
     Vehicle.auction_end vehicle <= t) ->
  let w' :=
    snd (api_place_bid_decimal alive request body now new_id created w) in
  exists vehicle winner,
    vehicle_by_id (DecimalBid.vehicle_id body) (db w) = Some vehicle
    /\ now < Vehicle.auction_end vehicle
    /\ In winner (bids (db w'))
    /\ Bid.vehicle_id winner = DecimalBid.vehicle_id body
    /\ Bid.amount winner = Bid.amount b
    /\ (Vehicle.current_price vehicle < Bid.amount b -> winner = b)
    /\ vehicle_by_id (DecimalBid.vehicle_id body)
         (db (snd (finalize_auctions t w')))
       = Some (Vehicle.set_owner_id (Some (Bid.user_id winner))
                 (Vehicle.set_is_active false
                    (Vehicle.set_current_price (Bid.amount b) vehicle))).
Proof.
  intros Hpk Hold Hret Hdue w'.
  destruct (accepted_decimal alive request body now new_id created w b Hret)
    as (user & vehicle & Hu & Hfind & Hid & Hact & Hnow & Hle & Hb & Hw').
  fold w' in Hw'.
  assert (Hbk : Bid.vehicle_id b = Vehicle.id vehicle)
    by (rewrite Hb, Hid; reflexivity).
  assert (Hbound : forall b', In b' (bids (db w)) ->
            Bid.vehicle_id b' = Vehicle.id vehicle ->
            Bid.amount b' <= Vehicle.current_price vehicle).
  { intros b' Hb' Hk'. apply (Hold vehicle b' Hfind Hb'). congruence. }
  assert (Hdb : db w' = committed vehicle b (db w))
    by (rewrite Hw'; reflexivity).
  destruct (top_bid_committed vehicle b (db w) Hbk Hle Hbound)
    as [winner (Htop & Hin & Hwk & Hamt & Hsame)].
  exists vehicle, winner.
  split; [exact Hfind|]. split; [exact Hnow|].
  split; [rewrite Hdb; exact Hin|]. split; [congruence|].
  split; [exact Hamt|]. split; [exact Hsame|].
  assert (Hpk' : pk_unique (db w')).
  { unfold pk_unique. rewrite Hdb. cbn [committed vehicles].
    rewrite update_vehicle_ids by reflexivity. exact Hpk. }
  rewrite finalize_auctions_spec. cbn [snd db].
  rewrite sweep_rows_pk by exact Hpk'.
  rewrite vehicle_by_id_map
    by (intros r; destruct (is_expired t r);
        [apply closed_row_id|reflexivity]).
  replace (mkDB (users (db w')) (vehicles (db w')) (bids (db w')))
    with (db w') by (destruct (db w'); reflexivity).
  rewrite Hdb, <- Hid.
  rewrite vehicle_by_id_committed by (rewrite Hid; exact Hfind).
  cbn [option_map].
  assert (Hx : is_expired t
                 (Vehicle.set_current_price (Bid.amount b) vehicle) = true).
  { unfold is_expired. cbn. rewrite Hact. cbn.
    apply Z.leb_le. apply Hdue. exact Hfind. }
  rewrite Hx. cbn [Vehicle.set_current_price Vehicle.id].
  rewrite Htop. reflexivity.
Qed.

Lemma last_bidder_wins_witness :
  pk_unique (db first_bid)
  /\ fst (@api_place_bid_decimal half_up everyone_alive (as_user bob)
            (DecimalBid.mk (Qmake 1500 1) 1) 95 2 95 first_bid)
     = Return (Bid.mk 2 150000 3 1 95)
  /\ vehicle_by_id 1
       (db (snd (@finalize_auctions stable_engine 101
                   (snd (@api_place_bid_decimal half_up everyone_alive
                           (as_user bob) (DecimalBid.mk (Qmake 1500 1) 1)
                           95 2 95 first_bid)))))
     = Some (Vehicle.mk 1 "Roadster" "" None 100000 150000 100 false
                        (Some 3)).
Proof.
  assert (Hpk : pk_unique (db first_bid)).
  { unfold pk_unique. cbn. repeat constructor; cbn; intuition discriminate. }
  assert (Hold : forall vehicle b',
            vehicle_by_id 1 (db first_bid) = Some vehicle ->
            In b' (bids (db first_bid)) -> Bid.vehicle_id b' = 1 ->
            Bid.amount b' <= Vehicle.current_price vehicle).
  { intros vehicle b' Hv Hb' _. vm_compute in Hv. injection Hv as <-.
    destruct Hb' as [<-|[]]. intros H. discriminate H. }
  assert (Hdue : forall vehicle,
            vehicle_by_id 1 (db first_bid) = Some vehicle ->
            Vehicle.auction_end vehicle <= 101).
  { intros vehicle Hv. vm_compute in Hv. injection Hv as <-.
    intros H. discriminate H. }
  split; [exact Hpk|]. split; [reflexivity|].
  destruct (@last_bidder_wins stable_engine half_up everyone_alive
              (as_user bob) (DecimalBid.mk (Qmake 1500 1) 1) 95 2 95
              first_bid (Bid.mk 2 150000 3 1 95) 101 Hpk Hold eq_refl Hdue)
    as (vehicle & winner & Hfind & _ & _ & _ & _ & Hsame & Hrow).
  vm_compute in Hfind. injection Hfind as <-.
  rewrite (Hsame eq_refl) in Hrow. exact Hrow.
Defined.

(** ** My vehicles *)

Lemma sweep_sequential {E : Engine} {N : Numeric} (now : Z) (w : World) :
  sequential w -> sequential (snd (finalize_auctions now w)).
Proof.
  intros Hseq.
  assert (Hrun : snd (finalize_auctions now w)
                 = serve (call everyone_alive (op_get_vehicles now)) w).
  { cbn [serve run]. unfold api_get_vehicles.
    rewrite bind_run, finalize_auctions_spec. reflexivity. }
  rewrite Hrun. apply sequential_serve; [exact Hseq|reflexivity].
Qed.

(** X15: "my vehicles" sends an anonymous caller to the login page
    without sweeping.  For a logged-in user it sweeps and then lists
    exactly the vehicles whose owner is that user, every one of them
    closed. *)
Theorem my_vehicles_lists_owned {E : Engine} {N : Numeric}
    (request : Request) (now : Z) (w : World) :
  sequential w ->
  match session_user request (db w) with
  | None => my_vehicles request now w = (Return (redirect "/login" 303), w)
  | Some user =>
      exists owned,
        my_vehicles request now w
        = (Return (my_vehicles_html user owned),
           snd (finalize_auctions now w))
        /\ (forall v,
              In v owned <->
              In v (vehicles (db (snd (finalize_auctions now w))))
              /\ Vehicle.owner_id v = Some (User.id user))
        /\ forall v, In v owned -> Vehicle.is_active v = false
  end.
Proof.
  intros Hseq. unfold my_vehicles.
  rewrite bind_run, get_current_user_run.
  destruct (session_user request (db w)) as [user|]; [|reflexivity].
  rewrite bind_run.
  destruct (finalize_auctions now w) as [[[]|e] w1] eqn:Hsweep.
  2: { rewrite finalize_auctions_spec in Hsweep. discriminate. }
  assert (Hw1 : w1 = snd (finalize_auctions now w))
    by (rewrite Hsweep; reflexivity).
  rewrite bind_run. unfold get_db. cbn [snd].
  eexists. split; [reflexivity|].
  assert (Hiff : forall v,
            In v (filter (owned_by (User.id user)) (vehicles (db w1))) <->
            In v (vehicles (db w1))
            /\ Vehicle.owner_id v = Some (User.id user)).
  { intros v. rewrite filter_In. unfold owned_by.
    destruct (Vehicle.owner_id v) as [o|].
    - rewrite Z.eqb_eq. split; intros [H1 H2]; split; congruence.
    - split; intros [H1 H2]; discriminate. }
  split; [exact Hiff|].
  intros v Hv. apply Hiff in Hv. destruct Hv as [Hv Ho].
  assert (Hseq1 : sequential w1)
    by (rewrite Hw1; apply sweep_sequential; exact Hseq).
  destruct (sequential_inv w1 Hseq1) as (_ & _ & _ & Hop).
  destruct (Vehicle.is_active v) eqn:Hact; [|reflexivity].
  rewrite (Hop v Hv Hact) in Ho. discriminate.
Qed.

Lemma my_vehicles_lists_owned_witness :
  @sequential stable_engine half_up fine_print
  /\ exists owned,
       fst (@my_vehicles stable_engine (as_user alice) 101 fine_print)
       = Return (my_vehicles_html alice owned)
       /\ forall v, In v owned -> Vehicle.is_active v = false.
Proof.
  split; [exact fine_print_sequential|].
  destruct (@my_vehicles_lists_owned stable_engine half_up (as_user alice)
              101 fine_print fine_print_sequential)
    as [owned [Hrun [_ Hclosed]]].
  exists owned. split; [rewrite Hrun; reflexivity|exact Hclosed].
Defined.
